(** * openssh_key: key envelopes and key parameters

    A shallow embedding of [openssh_key/key.py], [openssh_key/key_params.py]
    and the package [openssh_key/key_params/] ([common.py], [dss.py]),
    together with the properties of the envelope codec, the factory, the
    parameter objects and the conversions that the specification states.

    Conventions.
    - A Python [dict] with string keys is a [gmap string pyval]; [==] on
      dicts is equality of the maps (order of insertion does not count).
    - [bytes] is [list byte]; [str] is [string], read as the UTF-8 bytes of
      the text, so that [str.encode()] and [bytes.decode()] are the two
      conversions between [string] and [list byte] (the length and the
      slices of a [str] are then those of ASCII text; no statement below
      depends on them).
    - An exception is a value of [exn]; a call that may raise returns a
      [result]; a call that may also warn returns a [W], the warnings it
      emitted (in order) next to its result. *)

From Stdlib Require Import ZArith Lia List Strings.Byte String Ascii.
From stdpp Require Import gmap strings list fin_maps.

Local Open Scope string_scope.
Local Open Scope Z_scope.
Local Open Scope list_scope.

(** ** Values, exceptions, warnings *)

#[global] Instance byte_eq_decision : EqDecision byte := Byte.byte_eq_dec.

(** The Python values the parameter mappings of the sources hold;
    [PyNone] stands for a value of any other type. *)
Inductive pyval : Type :=
| PyInt (z : Z)
| PyBytes (b : list byte)
| PyStr (s : string)
| PyNone.

#[global] Instance pyval_eq_decision : EqDecision pyval.
Proof. solve_decision. Defined.

(** [ValuesDict]: a mapping from parameter names to values. *)
Abbreviation ValuesDict := (gmap string pyval).

(** [PascalStyleFormatInstruction], with the members the sources use. *)
Inductive PascalStyleFormatInstruction : Type := BYTES | STRING | MPINT.

#[global] Instance instruction_eq_decision : EqDecision PascalStyleFormatInstruction.
Proof. solve_decision. Defined.

(** [FormatInstructionsDict]: a dict literal, kept as the list of its items
    because its iteration order is the wire order. *)
Definition FormatInstructionsDict : Type :=
  list (string * PascalStyleFormatInstruction).

(** The exceptions of the sources ([KeyError] carries the missing key),
    and the two failures of the byte stream the specification names. *)
Inductive exn : Type :=
| KeyError (key : pyval)
| TypeError
| ValueError (msg : string)
| AttributeError
| NotImplementedError
| ShortRead
| FormatMismatch.

#[global] Instance exn_eq_decision : EqDecision exn.
Proof. solve_decision. Defined.

Inductive warning : Type :=
| UserWarning (msg : string)
| SchemaWarning (field : string) (instruction : PascalStyleFormatInstruction).

#[global] Instance warning_eq_decision : EqDecision warning.
Proof. solve_decision. Defined.

(** ** Results and warnings *)

Inductive result (A : Type) : Type :=
| Ok (a : A)
| Raise (e : exn).
Arguments Ok {A} a.
Arguments Raise {A} e.

Definition bind {A B} (c : result A) (k : A -> result B) : result B :=
  match c with
  | Ok a => k a
  | Raise e => Raise e
  end.

(** A computation that warns: the warnings emitted so far stay emitted
    when an exception is raised later. *)
Definition W (A : Type) : Type := (list warning * result A)%type.

Definition wret {A} (a : A) : W A := ([], Ok a).

Definition wbind {A B} (c : W A) (k : A -> W B) : W B :=
  match c with
  | (ws, Ok a) => let '(ws', r) := k a in (ws ++ ws', r)
  | (ws, Raise e) => (ws, Raise e)
  end.

Definition lift {A} (c : result A) : W A := ([], c).

Definition warn (w : warning) : W unit := ([w], Ok tt).

Declare Scope result_scope.
Declare Scope warn_scope.
Delimit Scope result_scope with result.
Delimit Scope warn_scope with warn.

Notation "x <- c1 ; c2" := (bind c1 (fun x => c2))
  (at level 20, c1 at level 100, c2 at level 200) : result_scope.
Notation "x <- c1 ; c2" := (wbind c1 (fun x => c2))
  (at level 20, c1 at level 100, c2 at level 200) : warn_scope.

(** ** Python operations on values *)

(** [d[key]]. *)
Definition getitem (d : ValuesDict) (key : string) : result pyval :=
  match d !! key with
  | Some v => Ok v
  | None => Raise (KeyError (PyStr key))
  end.

(** [key in d]. *)
Definition contains (d : ValuesDict) (key : string) : bool :=
  bool_decide (is_Some (d !! key)).

(** [len(v)]. *)
Definition py_len (v : pyval) : result Z :=
  match v with
  | PyBytes b => Ok (Z.of_nat (length b))
  | PyStr s => Ok (Z.of_nat (String.length s))
  | PyInt _ | PyNone => Raise TypeError
  end.

(** [v[n:]] and [v[:n]] for a literal [n >= 0]. *)
Definition slice_from (v : pyval) (n : nat) : result pyval :=
  match v with
  | PyBytes b => Ok (PyBytes (drop n b))
  | PyStr s => Ok (PyStr (string_of_list_ascii (drop n (list_ascii_of_string s))))
  | PyInt _ | PyNone => Raise TypeError
  end.

Definition slice_to (v : pyval) (n : nat) : result pyval :=
  match v with
  | PyBytes b => Ok (PyBytes (take n b))
  | PyStr s => Ok (PyStr (string_of_list_ascii (take n (list_ascii_of_string s))))
  | PyInt _ | PyNone => Raise TypeError
  end.

(** ** Classes as arguments, and conversions in the words of the specification *)

(** The argument of [convert_to]: a class, or an object that is no class. *)
Inductive pyobject (pyclass : Type) : Type :=
| Class (c : pyclass)
| NotAClass.
Arguments Class {pyclass} c.
Arguments NotAClass {pyclass}.

(** The search of §4.3: the levels of an inheritance chain, most specific
    class first, each with its adapters (the registered type and the
    adapter) in their order; the first adapter whose registered type is a
    subtype of the target, if there is one. *)
Definition first_adapter {pyclass F : Type}
    (subtype : pyclass -> pyclass -> bool)
    (levels : list (list (pyclass * F))) (target : pyclass) : option F :=
  snd <$> find (fun item => subtype item.1 target) (concat levels).

(** ** The byte stream ([openssh_key/pascal_style_byte_stream.py])

    The sources import [PascalStyleByteStream] and do not contain it. Its
    operations are given here as the specification describes them (§4.1
    and §6, "Wire format"). A stream that is read is the list of the bytes
    not yet consumed; a stream that is written is the list of the bytes
    written so far. *)
Module PascalStyleByteStream.

(** Modelled from the spec: a byte as an integer in 0..255, both ways
    ([pascal_style_byte_stream.py] is not among the sources; §6 "All
    multi-byte integers are big-endian"). *)
Definition Z_of_byte (b : byte) : Z := Z.of_N (Byte.to_N b).

(** Modelled from the spec: the byte holding [z mod 256]
    ([pascal_style_byte_stream.py] is not among the sources). *)
Definition byte_of_Z (z : Z) : byte :=
  default x00 (Byte.of_N (Z.to_N (z mod 256))).

(** Modelled from the spec: the [n] low-order bytes of [z], least
    significant first ([pascal_style_byte_stream.py] is missing; helper of
    the big-endian integers of §6). *)
Fixpoint le_bytes (n : nat) (z : Z) : list byte :=
  match n with
  | O => []
  | S n' => byte_of_Z z :: le_bytes n' (z / 256)
  end.

(** Modelled from the spec: the unsigned value of bytes given least
    significant first ([pascal_style_byte_stream.py] is missing; helper of
    §6). *)
Fixpoint le_value (l : list byte) : Z :=
  match l with
  | [] => 0
  | b :: l' => Z_of_byte b + 256 * le_value l'
  end.

(** Modelled from the spec: "Fixed-width ints: raw big-endian bytes", the
    [n]-byte big-endian form of [z] modulo [256^n]
    ([pascal_style_byte_stream.py] is missing). *)
Definition to_bytes_big (n : nat) (z : Z) : list byte := rev (le_bytes n z).

(** Modelled from the spec: the unsigned big-endian value of a byte sequence
    ([pascal_style_byte_stream.py] is missing; §6). *)
Definition from_bytes_big (l : list byte) : Z := le_value (rev l).

(** Modelled from the spec: [read_mpint], "zero-length ⇒ 0; otherwise signed
    big-endian" (two's complement; [pascal_style_byte_stream.py] is
    missing). *)
Definition from_bytes_big_signed (l : list byte) : Z :=
  match l with
  | [] => 0
  | _ =>
    let u := from_bytes_big l in
    let m := 256 ^ Z.of_nat (length l) in
    if 2 * u <? m then u else u - m
  end.

(** Modelled from the spec: the number of bytes of the minimal two's
    complement form of [z]: "non-negative values whose high bit is set gain
    a leading zero byte; zero encodes as empty" (§3;
    [pascal_style_byte_stream.py] is missing). For [z > 0] one sign bit is
    added to the bits of [z]; for [z < 0] to the bits of [-z-1]. *)
Definition mpint_size (z : Z) : nat :=
  if z =? 0 then O
  else
    let m := if z <? 0 then - z - 1 else z in
    let bit_length := if m =? 0 then 0 else Z.log2 m + 1 in
    Z.to_nat (bit_length / 8 + 1).

(** Modelled from the spec: [write_mpint] without its length prefix, "the
    canonical minimal form" (§4.1; [pascal_style_byte_stream.py] is
    missing). *)
Definition mpint_bytes (z : Z) : list byte := to_bytes_big (mpint_size z) z.

(** Modelled from the spec: [read_bytes(n)] / [read_fixed_bytes(n)],
    "consume exactly n bytes; fails with ShortRead if fewer are available"
    ([pascal_style_byte_stream.py] is missing). *)
Definition read_fixed_bytes (n : nat) (stream : list byte)
  : result (list byte * list byte) :=
  if decide (n <= length stream)%nat
  then Ok (take n stream, drop n stream)
  else Raise ShortRead.

(** Modelled from the spec: [read_u32], "big-endian, consume 4 bytes"
    ([pascal_style_byte_stream.py] is missing). *)
Definition read_u32 (stream : list byte) : result (Z * list byte) :=
  (r <- read_fixed_bytes 4 stream ;
   Ok (from_bytes_big r.1, r.2))%result.

(** Modelled from the spec: [read_length_prefixed()], "read a u32 length L,
    then L bytes; fails with ShortRead if truncated"
    ([pascal_style_byte_stream.py] is missing). *)
Definition read_pascal_bytes (stream : list byte)
  : result (list byte * list byte) :=
  (r <- read_u32 stream ;
   read_fixed_bytes (Z.to_nat r.1) r.2)%result.

(** Modelled from the spec: one field read, by its tag: [BYTES] opaque,
    [STRING] "length-prefixed sequence of bytes interpreted as text",
    [MPINT] per [read_mpint] (§3, §4.1; [pascal_style_byte_stream.py] is
    missing). *)
Definition read_from_format_instruction
    (instruction : PascalStyleFormatInstruction) (stream : list byte)
  : result (pyval * list byte) :=
  (r <- read_pascal_bytes stream ;
   Ok (match instruction with
       | BYTES => PyBytes r.1
       | STRING => PyStr (string_of_list_byte r.1)
       | MPINT => PyInt (from_bytes_big_signed r.1)
       end, r.2))%result.

(** Modelled from the spec: [read_struct(schema)], "for each field in
    declaration order, dispatch on the tag and produce a name→value
    mapping"; a failed field read surfaces unmodified (§7, scenario d)
    ([pascal_style_byte_stream.py] is missing). *)
Fixpoint read_from_format_instructions_dict
    (format_instructions_dict : FormatInstructionsDict) (stream : list byte)
  : result (ValuesDict * list byte) :=
  match format_instructions_dict with
  | [] => Ok (∅, stream)
  | (k, instruction) :: rest =>
    (r <- read_from_format_instruction instruction stream ;
     r' <- read_from_format_instructions_dict rest r.2 ;
     Ok (<[k := r.1]> r'.1, r'.2))%result
  end.

(** Modelled from the spec: the [uint32 length] prefix of §6; a length that
    does not fit 32 bits cannot be written ([pascal_style_byte_stream.py] is
    missing). *)
Definition write_u32 (n : Z) (stream : list byte) : result (list byte) :=
  if decide (0 <= n < 2 ^ 32)
  then Ok (stream ++ to_bytes_big 4 n)
  else Raise FormatMismatch.

(** Modelled from the spec: "STRING, BYTES: uint32 length followed by length
    bytes" ([pascal_style_byte_stream.py] is missing). *)
Definition write_pascal_bytes (b : list byte) (stream : list byte)
  : result (list byte) :=
  (s <- write_u32 (Z.of_nat (length b)) stream ;
   Ok (s ++ b))%result.

(** Modelled from the spec: one field write, by its tag; the value must have
    the runtime type of the tag, "integer for MPINT, byte sequence for
    BYTES, text for STRING" (§3; [pascal_style_byte_stream.py] is missing). *)
Definition write_from_format_instruction
    (instruction : PascalStyleFormatInstruction) (value : pyval)
    (stream : list byte) : result (list byte) :=
  match instruction, value with
  | BYTES, PyBytes b => write_pascal_bytes b stream
  | STRING, PyStr s => write_pascal_bytes (list_byte_of_string s) stream
  | MPINT, PyInt z => write_pascal_bytes (mpint_bytes z) stream
  | _, _ => Raise FormatMismatch
  end.

(** Modelled from the spec: "A structured record is the concatenation of its
    fields in schema declaration order"; "every declared field must be
    present at encode time" (§3, §6; [pascal_style_byte_stream.py] is
    missing). Only the fields of the schema are looked up in the values. *)
Fixpoint write_from_format_instructions_dict
    (format_instructions_dict : FormatInstructionsDict) (values_dict : ValuesDict)
    (stream : list byte) : result (list byte) :=
  match format_instructions_dict with
  | [] => Ok stream
  | (k, instruction) :: rest =>
    (v <- getitem values_dict k ;
     s <- write_from_format_instruction instruction v stream ;
     write_from_format_instructions_dict rest values_dict s)%result
  end.

(** Modelled from the spec: the runtime type a tag asks for (§3;
    [pascal_style_byte_stream.py] is missing). *)
Definition matches_instruction
    (instruction : PascalStyleFormatInstruction) (value : pyval) : bool :=
  match instruction, value with
  | BYTES, PyBytes _ | STRING, PyStr _ | MPINT, PyInt _ => true
  | _, _ => false
  end.

(** Modelled from the spec: [check_mapping_matches_schema(values, schema)],
    "for each field in the schema, assert presence and a runtime type
    compatible with the tag; on mismatch emit a non-fatal warning, not an
    error" (§4.1; [pascal_style_byte_stream.py] is missing). *)
Fixpoint check_dict_matches_format_instructions_dict
    (target_dict : ValuesDict) (format_instructions_dict : FormatInstructionsDict)
  : W unit :=
  match format_instructions_dict with
  | [] => wret tt
  | (k, instruction) :: rest =>
    (_ <- match target_dict !! k with
          | Some v =>
            if matches_instruction instruction v then wret tt
            else warn (SchemaWarning k instruction)
          | None => warn (SchemaWarning k instruction)
          end ;
     check_dict_matches_format_instructions_dict target_dict rest)%warn
  end.

End PascalStyleByteStream.
Import PascalStyleByteStream.


(** ** [openssh_key/key_params.py] *)
Module key_params.

(** The concrete parameter classes of the module. Their bases are
    [PublicKeyParams(UserDict, ABC)] and [PrivateKeyParams(PublicKeyParams)];
    [RSAPrivateKeyParams(PrivateKeyParams, RSAPublicKeyParams)] and
    [Ed25519PrivateKeyParams(PrivateKeyParams, Ed25519PublicKeyParams)]. *)
Inductive ParamsClass : Type :=
| RSAPublicKeyParams
| RSAPrivateKeyParams
| Ed25519PublicKeyParams
| Ed25519PrivateKeyParams.

#[global] Instance ParamsClass_eq_decision : EqDecision ParamsClass.
Proof. solve_decision. Defined.

(** A parameter object: its class and the [data] of the [UserDict]. *)
Record PublicKeyParams : Type := mkParams {
  class_of : ParamsClass;
  data : ValuesDict
}.

(** [cls.public_format_instructions_dict()]; a private class inherits
    the method of its public base. *)
Definition public_format_instructions_dict (cls : ParamsClass)
  : FormatInstructionsDict :=
  match cls with
  | RSAPublicKeyParams | RSAPrivateKeyParams =>
    [("e", MPINT); ("n", MPINT)]
  | Ed25519PublicKeyParams | Ed25519PrivateKeyParams =>
    [("public", BYTES)]
  end.

(** [cls.private_format_instructions_dict()]; the public classes have no
    such attribute. *)
Definition private_format_instructions_dict (cls : ParamsClass)
  : result FormatInstructionsDict :=
  match cls with
  | RSAPrivateKeyParams =>
    Ok [("n", MPINT); ("e", MPINT); ("d", MPINT);
        ("iqmp", MPINT); ("p", MPINT); ("q", MPINT)]
  | Ed25519PrivateKeyParams =>
    Ok [("public", BYTES); ("private_public", BYTES)]
  | RSAPublicKeyParams | Ed25519PublicKeyParams => Raise AttributeError
  end.

(** [Ed25519PublicKeyParams.KEY_SIZE] and [str(self.KEY_SIZE)]. *)
Definition KEY_SIZE : Z := 32.
Definition str_KEY_SIZE : string := "32".

(** [PublicKeyParams.check_params_are_valid]. *)
Definition PublicKeyParams_check_params_are_valid (self : PublicKeyParams)
  : W unit :=
  check_dict_matches_format_instructions_dict
    (data self) (public_format_instructions_dict (class_of self)).

(** [PrivateKeyParams.check_params_are_valid]. *)
Definition PrivateKeyParams_check_params_are_valid (self : PublicKeyParams)
  : W unit :=
  (fmt <- lift (private_format_instructions_dict (class_of self)) ;
   check_dict_matches_format_instructions_dict (data self) fmt)%warn.

(** [Ed25519PublicKeyParams.check_params_are_valid]; its [super()] is
    [PublicKeyParams] in the method resolution order of both Ed25519
    classes. *)
Definition Ed25519PublicKeyParams_check_params_are_valid
    (self : PublicKeyParams) : W unit :=
  (_ <- PublicKeyParams_check_params_are_valid self ;
   if contains (data self) "public" then
     v <- lift (getitem (data self) "public") ;
     n <- lift (py_len v) ;
     if negb (n =? KEY_SIZE)
     then warn (UserWarning ("Public key not of length " ++ str_KEY_SIZE)%string)
     else wret tt
   else wret tt)%warn.

(** [Ed25519PrivateKeyParams.check_params_are_valid]. *)
Definition Ed25519PrivateKeyParams_check_params_are_valid
    (self : PublicKeyParams) : W unit :=
  (_ <- Ed25519PublicKeyParams_check_params_are_valid self ;
   _ <- PrivateKeyParams_check_params_are_valid self ;
   if negb (contains (data self) "private_public") then wret tt
   else
     private_public <- lift (getitem (data self) "private_public") ;
     tail <- lift (slice_from private_public (Z.to_nat KEY_SIZE)) ;
     public <- lift (getitem (data self) "public") ;
     _ <- (if negb (bool_decide (tail = public))
           then warn (UserWarning "Public key does not match")
           else wret tt) ;
     private_public' <- lift (getitem (data self) "private_public") ;
     tail' <- lift (slice_from private_public' (Z.to_nat KEY_SIZE)) ;
     n <- lift (py_len tail') ;
     if negb (n =? KEY_SIZE)
     then warn (UserWarning ("Private key not of length " ++ str_KEY_SIZE)%string)
     else wret tt)%warn.

(** [self.check_params_are_valid()], by the class of [self]:
    [RSAPublicKeyParams] inherits the method of [PublicKeyParams],
    [RSAPrivateKeyParams] that of [PrivateKeyParams] (first in its bases). *)
Definition check_params_are_valid (self : PublicKeyParams) : W unit :=
  match class_of self with
  | RSAPublicKeyParams => PublicKeyParams_check_params_are_valid self
  | RSAPrivateKeyParams => PrivateKeyParams_check_params_are_valid self
  | Ed25519PublicKeyParams => Ed25519PublicKeyParams_check_params_are_valid self
  | Ed25519PrivateKeyParams => Ed25519PrivateKeyParams_check_params_are_valid self
  end.

(** [cls(params)], that is [PublicKeyParams.__init__]: the mapping is
    copied into [data], then checked. *)
Definition __init__ (cls : ParamsClass) (params : ValuesDict)
  : W PublicKeyParams :=
  (let self := mkParams cls params in
   _ <- check_params_are_valid self ;
   wret self)%warn.

(** [a == b] on parameter objects. No class of the module defines
    [__eq__]: the comparison is the one [collections.UserDict] inherits
    from [collections.abc.Mapping], which compares the items of the two
    mappings and nothing else. *)
Definition __eq__ (a b : PublicKeyParams) : bool :=
  bool_decide (data a = data b).

(** *** Conversions to key objects *)

(** The classes of key objects the module names, and [object]. *)
Inductive pytype : Type :=
| rsa_RSAPublicKey
| rsa_RSAPrivateKey
| ed25519_Ed25519PublicKey
| ed25519_Ed25519PrivateKey
| bytes_class
| nacl_public_PublicKey
| nacl_public_PrivateKey
| object_class.

#[global] Instance pytype_eq_decision : EqDecision pytype.
Proof. solve_decision. Defined.

(** [issubclass(a, b)] between these classes: each of them is a subclass
    of itself and of [object], and of no other of them. *)
Definition issubclass (a b : pytype) : bool :=
  bool_decide (a = b) || bool_decide (b = object_class).

(** What a conversion returns: a key object of [cryptography] or of
    [nacl], by the values it was built from (the validation these
    libraries do of the values is not modelled), or a value of the
    mapping itself. *)
Inductive key_object : Type :=
| RSAPublicKey_object (e n : pyval)
| RSAPrivateKey_object (p q d iqmp e n : pyval)
| Ed25519PublicKey_object (public : pyval)
| Ed25519PrivateKey_object (private : pyval)
| nacl_PublicKey_object (public : pyval)
| nacl_PrivateKey_object (private : pyval)
| value_object (v : pyval).

(** [destination_class == c] for a class [c]. *)
Definition is_class (destination_class : pyobject pytype) (c : pytype) : bool :=
  match destination_class with
  | Class c' => bool_decide (c' = c)
  | NotAClass => false
  end.

(** The [return] expressions of the [convert_to] methods. The exponents
    [rsa_crt_dmp1(d, p)] and [rsa_crt_dmp1(d, q)] of an RSA private key
    are functions of the values the object is given by here. *)
Definition to_RSAPublicKey (self : PublicKeyParams) : result key_object :=
  (e <- getitem (data self) "e" ;
   n <- getitem (data self) "n" ;
   Ok (RSAPublicKey_object e n))%result.

Definition to_RSAPrivateKey (self : PublicKeyParams) : result key_object :=
  (p <- getitem (data self) "p" ;
   q <- getitem (data self) "q" ;
   d <- getitem (data self) "d" ;
   iqmp <- getitem (data self) "iqmp" ;
   e <- getitem (data self) "e" ;
   n <- getitem (data self) "n" ;
   Ok (RSAPrivateKey_object p q d iqmp e n))%result.

Definition to_Ed25519PublicKey (self : PublicKeyParams) : result key_object :=
  (public <- getitem (data self) "public" ;
   Ok (Ed25519PublicKey_object public))%result.

Definition to_public_bytes (self : PublicKeyParams) : result key_object :=
  (public <- getitem (data self) "public" ;
   Ok (value_object public))%result.

Definition to_nacl_PublicKey (self : PublicKeyParams) : result key_object :=
  (public <- getitem (data self) "public" ;
   Ok (nacl_PublicKey_object public))%result.

(** [self['private_public'][:self.KEY_SIZE]]. *)
Definition private_bytes (self : PublicKeyParams) : result pyval :=
  (private_public <- getitem (data self) "private_public" ;
   slice_to private_public (Z.to_nat KEY_SIZE))%result.

Definition to_Ed25519PrivateKey (self : PublicKeyParams) : result key_object :=
  (private <- private_bytes self ;
   Ok (Ed25519PrivateKey_object private))%result.

Definition to_private_bytes (self : PublicKeyParams) : result key_object :=
  (private <- private_bytes self ;
   Ok (value_object private))%result.

Definition to_nacl_PrivateKey (self : PublicKeyParams) : result key_object :=
  (private <- private_bytes self ;
   Ok (nacl_PrivateKey_object private))%result.

(** [PublicKeyParams.convert_to]. *)
Definition PublicKeyParams_convert_to
    (self : PublicKeyParams) (destination_class : pyobject pytype)
  : result key_object :=
  match destination_class with
  | NotAClass => Raise (ValueError "destination_class must be a class")
  | Class _ => Raise NotImplementedError
  end.

(** [RSAPublicKeyParams.convert_to]; its [super()] is [PublicKeyParams]. *)
Definition RSAPublicKeyParams_convert_to
    (self : PublicKeyParams) (destination_class : pyobject pytype)
  : result key_object :=
  if is_class destination_class rsa_RSAPublicKey then to_RSAPublicKey self
  else PublicKeyParams_convert_to self destination_class.

(** [RSAPrivateKeyParams.convert_to]; [PrivateKeyParams] defines no
    [convert_to], so its [super()] is [RSAPublicKeyParams]. *)
Definition RSAPrivateKeyParams_convert_to
    (self : PublicKeyParams) (destination_class : pyobject pytype)
  : result key_object :=
  if is_class destination_class rsa_RSAPrivateKey then to_RSAPrivateKey self
  else RSAPublicKeyParams_convert_to self destination_class.

(** [Ed25519PublicKeyParams.convert_to]; [nacl] tells whether
    [import nacl] succeeds. *)
Definition Ed25519PublicKeyParams_convert_to
    (nacl : bool) (self : PublicKeyParams) (destination_class : pyobject pytype)
  : result key_object :=
  if is_class destination_class ed25519_Ed25519PublicKey
  then to_Ed25519PublicKey self
  else if is_class destination_class bytes_class
  then to_public_bytes self
  else if nacl && is_class destination_class nacl_public_PublicKey
  then to_nacl_PublicKey self
  else PublicKeyParams_convert_to self destination_class.

(** [Ed25519PrivateKeyParams.convert_to]. *)
Definition Ed25519PrivateKeyParams_convert_to
    (nacl : bool) (self : PublicKeyParams) (destination_class : pyobject pytype)
  : result key_object :=
  if is_class destination_class ed25519_Ed25519PrivateKey
  then to_Ed25519PrivateKey self
  else if is_class destination_class bytes_class
  then to_private_bytes self
  else if nacl && is_class destination_class nacl_public_PrivateKey
  then to_nacl_PrivateKey self
  else Ed25519PublicKeyParams_convert_to nacl self destination_class.

(** [self.convert_to(destination_class)], by the class of [self]. *)
Definition convert_to
    (nacl : bool) (self : PublicKeyParams) (destination_class : pyobject pytype)
  : result key_object :=
  match class_of self with
  | RSAPublicKeyParams => RSAPublicKeyParams_convert_to self destination_class
  | RSAPrivateKeyParams => RSAPrivateKeyParams_convert_to self destination_class
  | Ed25519PublicKeyParams =>
    Ed25519PublicKeyParams_convert_to nacl self destination_class
  | Ed25519PrivateKeyParams =>
    Ed25519PrivateKeyParams_convert_to nacl self destination_class
  end.

(** The classes of the method resolution order of [cls] that have a
    [convert_to] of their own, before the base [PublicKeyParams] (which
    converts to nothing). *)
Definition inheritance_chain (cls : ParamsClass) : list ParamsClass :=
  match cls with
  | RSAPublicKeyParams => [RSAPublicKeyParams]
  | RSAPrivateKeyParams => [RSAPrivateKeyParams; RSAPublicKeyParams]
  | Ed25519PublicKeyParams => [Ed25519PublicKeyParams]
  | Ed25519PrivateKeyParams => [Ed25519PrivateKeyParams; Ed25519PublicKeyParams]
  end.

(** The types each of these classes converts to, with the conversion, in
    the order its [convert_to] tries them. *)
Definition adapters (nacl : bool) (level : ParamsClass)
  : list (pytype * (PublicKeyParams -> result key_object)) :=
  match level with
  | RSAPublicKeyParams => [(rsa_RSAPublicKey, to_RSAPublicKey)]
  | RSAPrivateKeyParams => [(rsa_RSAPrivateKey, to_RSAPrivateKey)]
  | Ed25519PublicKeyParams =>
    [(ed25519_Ed25519PublicKey, to_Ed25519PublicKey);
     (bytes_class, to_public_bytes)]
    ++ (if nacl then [(nacl_public_PublicKey, to_nacl_PublicKey)] else [])
  | Ed25519PrivateKeyParams =>
    [(ed25519_Ed25519PrivateKey, to_Ed25519PrivateKey);
     (bytes_class, to_private_bytes)]
    ++ (if nacl then [(nacl_public_PrivateKey, to_nacl_PrivateKey)] else [])
  end.

Record PublicPrivateKeyParamsClasses : Type := {
  publicKeyParamsClass : ParamsClass;
  privateKeyParamsClass : ParamsClass
}.

Definition _KEY_TYPE_MAPPING : gmap string PublicPrivateKeyParamsClasses :=
  {[ "ssh-rsa" :=
       {| publicKeyParamsClass := RSAPublicKeyParams;
          privateKeyParamsClass := RSAPrivateKeyParams |};
     "ssh-ed25519" :=
       {| publicKeyParamsClass := Ed25519PublicKeyParams;
          privateKeyParamsClass := Ed25519PrivateKeyParams |} ]}.

(** [_KEY_TYPE_MAPPING[key_type]]: a key that is no [str] is in no entry. *)
Definition mapping_getitem (key_type : pyval)
  : result PublicPrivateKeyParamsClasses :=
  match key_type with
  | PyStr s =>
    match _KEY_TYPE_MAPPING !! s with
    | Some classes => Ok classes
    | None => Raise (KeyError key_type)
    end
  | _ => Raise (KeyError key_type)
  end.

Definition create_public_key_params (key_type : pyval) : result ParamsClass :=
  (classes <- mapping_getitem key_type ;
   Ok (publicKeyParamsClass classes))%result.

Definition create_private_key_params (key_type : pyval) : result ParamsClass :=
  (classes <- mapping_getitem key_type ;
   Ok (privateKeyParamsClass classes))%result.

End key_params.

(** ** [openssh_key/key.py] *)
Module key.
Import key_params.

Inductive KeyClass : Type := PublicKey | PrivateKey.

#[global] Instance KeyClass_eq_decision : EqDecision KeyClass.
Proof. solve_decision. Defined.

(** A key object: its class ([type(self)]), the attributes set by
    [__init__], and the attributes [bytes] and [remainder] that only
    [from_bytes] sets. *)
Record Key : Type := mkKey {
  type_of : KeyClass;
  header : ValuesDict;
  params : PublicKeyParams;
  footer : ValuesDict;
  bytes : option (list byte);
  remainder : option (list byte)
}.

Definition header_format_instructions_dict (cls : KeyClass)
  : FormatInstructionsDict :=
  match cls with
  | PublicKey => [("key_type", STRING)]
  | PrivateKey => [("key_type", STRING)]
  end.

Definition footer_format_instructions_dict (cls : KeyClass)
  : FormatInstructionsDict :=
  match cls with
  | PublicKey => []
  | PrivateKey => [("comment", STRING)]
  end.

Definition create_key_params_dict
    (cls : KeyClass) (key_type : pyval) (byte_stream : list byte)
  : result (ValuesDict * list byte) :=
  match cls with
  | PublicKey =>
    (c <- create_public_key_params key_type ;
     read_from_format_instructions_dict
       (public_format_instructions_dict c) byte_stream)%result
  | PrivateKey =>
    (c <- create_private_key_params key_type ;
     fmt <- private_format_instructions_dict c ;
     read_from_format_instructions_dict fmt byte_stream)%result
  end.

Definition create_key_params
    (cls : KeyClass) (key_type : pyval) (key_params_dict : ValuesDict)
  : W PublicKeyParams :=
  match cls with
  | PublicKey =>
    (c <- lift (create_public_key_params key_type) ;
     key_params.__init__ c key_params_dict)%warn
  | PrivateKey =>
    (c <- lift (create_private_key_params key_type) ;
     key_params.__init__ c key_params_dict)%warn
  end.

(** [cls(header, params, footer)], that is [PublicKey.__init__]. *)
Definition __init__ (cls : KeyClass) (header params footer : ValuesDict)
  : W Key :=
  (_ <- check_dict_matches_format_instructions_dict
          header (header_format_instructions_dict cls) ;
   key_type <- lift (getitem header "key_type") ;
   p <- create_key_params cls key_type params ;
   _ <- check_dict_matches_format_instructions_dict
          footer (footer_format_instructions_dict cls) ;
   wret (mkKey cls header p footer None None))%warn.

Definition from_byte_stream (cls : KeyClass) (byte_stream : list byte)
  : W (Key * list byte) :=
  (h <- lift (read_from_format_instructions_dict
                (header_format_instructions_dict cls) byte_stream) ;
   key_type <- lift (getitem h.1 "key_type") ;
   p <- lift (create_key_params_dict cls key_type h.2) ;
   f <- lift (read_from_format_instructions_dict
                (footer_format_instructions_dict cls) p.2) ;
   k <- __init__ cls h.1 p.1 f.1 ;
   wret (k, f.2))%warn.

(** [cls.from_bytes(byte_string)]; [byte_stream.read()] returns the bytes
    not yet consumed. *)
Definition from_bytes (cls : KeyClass) (byte_string : list byte) : W Key :=
  (r <- from_byte_stream cls byte_string ;
   let key := r.1 in
   let key := mkKey (type_of key) (header key) (params key) (footer key)
                    (Some byte_string) (remainder key) in
   let remainder := r.2 in
   if decide (0 < length remainder)%nat then
     _ <- warn (UserWarning "Excess bytes in key") ;
     wret (mkKey (type_of key) (header key) (params key) (footer key)
                 (bytes key) (Some remainder))
   else wret key)%warn.

Definition pack_public (self : Key) : result (list byte) :=
  (s1 <- write_from_format_instructions_dict
           (header_format_instructions_dict PublicKey) (header self) [] ;
   s2 <- write_from_format_instructions_dict
           (public_format_instructions_dict (class_of (params self)))
           (data (params self)) s1 ;
   write_from_format_instructions_dict
     (footer_format_instructions_dict PublicKey) (footer self) s2)%result.

(** [pack_private] is a method of [PrivateKey] only. *)
Definition pack_private (self : Key) : result (list byte) :=
  match type_of self with
  | PublicKey => Raise AttributeError
  | PrivateKey =>
    (s1 <- write_from_format_instructions_dict
             (header_format_instructions_dict PrivateKey) (header self) [] ;
     fmt <- private_format_instructions_dict (class_of (params self)) ;
     s2 <- write_from_format_instructions_dict fmt (data (params self)) s1 ;
     write_from_format_instructions_dict
       (footer_format_instructions_dict PrivateKey) (footer self) s2)%result
  end.

(** [PublicKey.__eq__], inherited by [PrivateKey]. *)
Definition __eq__ (self other : Key) : bool :=
  bool_decide (type_of self = type_of other)
  && bool_decide (header self = header other)
  && key_params.__eq__ (params self) (params other)
  && bool_decide (footer self = footer other).

End key.

(** ** [openssh_key/key_params/common.py] *)
Module common.

(** [ConversionFunctions]: [object_to_mapping] returns [None] or a
    mapping; [mapping_to_object] builds the key object or raises. *)
Record ConversionFunctions (key_object : Type) : Type := {
  object_to_mapping : key_object -> option ValuesDict;
  mapping_to_object : ValuesDict -> result key_object
}.
Arguments object_to_mapping {key_object} c.
Arguments mapping_to_object {key_object} c.

(** A parameter object: its class ([self.__class__]) and its [data]. *)
Record PublicKeyParams (pyclass : Type) : Type := mkParams {
  class_of : pyclass;
  data : ValuesDict
}.
Arguments mkParams {pyclass} class_of data.
Arguments class_of {pyclass} p.
Arguments data {pyclass} p.

(** [a == b] on parameter objects: as in [key_params.py], the class
    defines no [__eq__] and the comparison of [collections.UserDict]
    compares the items of the two mappings. *)
Definition __eq__ {pyclass} (a b : PublicKeyParams pyclass) : bool :=
  bool_decide (data a = data b).

Section convert.
(** The classes of the program (parameter classes and classes of key
    objects alike) as the interpreter knows them: [issubclass],
    [cls.__mro__], the class [PublicKeyParams] itself, and
    [cls.conversion_functions()], a dict given as the list of its items
    in iteration order (it raises [AttributeError] on a class that has
    no such attribute). *)
Context {pyclass key_object : Type}.
Variable issubclass : pyclass -> pyclass -> bool.
Variable mro : pyclass -> list pyclass.
Variable PublicKeyParams_class : pyclass.
Variable conversion_functions :
  pyclass -> result (list (pyclass * ConversionFunctions key_object)).

(** The inner loop of [convert_to], over the items that are left:
    [Some r] when the loop returns (or raises) [r], [None] when it runs
    to its end. [supercls.conversion_functions()[candidate_class]] is
    the value the key [candidate_class] is paired with. *)
Fixpoint search_candidates
    (items : list (pyclass * ConversionFunctions key_object))
    (destination_class : pyclass) (self : PublicKeyParams pyclass)
  : option (result key_object) :=
  match items with
  | [] => None
  | (candidate_class, functions) :: rest =>
    if issubclass candidate_class destination_class
    then Some (mapping_to_object functions (data self))
    else search_candidates rest destination_class self
  end.

(** The outer loop of [convert_to], over the classes of the method
    resolution order that are left; the [break] and the end of the loop
    both reach [raise NotImplementedError()]. *)
Fixpoint mro_walk
    (classes : list pyclass)
    (destination_class : pyclass) (self : PublicKeyParams pyclass)
  : result key_object :=
  match classes with
  | [] => Raise NotImplementedError
  | supercls :: rest =>
    if negb (issubclass supercls PublicKeyParams_class)
    then Raise NotImplementedError
    else
      (items <- conversion_functions supercls ;
       match search_candidates items destination_class self with
       | Some r => r
       | None => mro_walk rest destination_class self
       end)%result
  end.

(** [PublicKeyParams.convert_to]. *)
Definition convert_to
    (self : PublicKeyParams pyclass) (destination_class : pyobject pyclass)
  : result key_object :=
  match destination_class with
  | NotAClass => Raise (ValueError "destination_class must be a class")
  | Class c => mro_walk (mro (class_of self)) c self
  end.

(** The conversion in the words of the specification (§4.3): along the
    inheritance chain, most specific class first, the first adapter
    whose registered type is a subtype of the target is invoked; when
    there is none the conversion is unsupported. *)
Definition convert_to_spec
    (chain : list pyclass)
    (adapters : pyclass -> list (pyclass * ConversionFunctions key_object))
    (self : PublicKeyParams pyclass) (target : pyclass)
  : result key_object :=
  match first_adapter issubclass (map adapters chain) target with
  | Some functions => mapping_to_object functions (data self)
  | None => Raise NotImplementedError
  end.
End convert.

End common.

(** ** [openssh_key/key_params/dss.py]

    The classes the module declares,
    [DSSPublicKeyParams(PublicKeyParams)] and
    [DSSPrivateKeyParams(PrivateKeyParams, DSSPublicKeyParams)], with the
    classes they inherit from and the two classes of [cryptography]'s
    [dsa] module their conversions name. *)
Module dss.
Import common.

Inductive pyclass : Type :=
| PublicKeyParams_class
| PrivateKeyParams_class
| DSSPublicKeyParams
| DSSPrivateKeyParams
| UserDict
| MutableMapping
| Mapping
| Collection
| Sized
| Iterable
| Container
| ABC
| object_class
| dsa_DSAPublicKey
| dsa_DSAPrivateKey.

#[global] Instance pyclass_eq_decision : EqDecision pyclass.
Proof. solve_decision. Defined.

(** [cls.__mro__], the linearisation of the class statements. *)
Definition mro (cls : pyclass) : list pyclass :=
  let mapping_mro :=
    [Mapping; Collection; Sized; Iterable; Container; object_class] in
  let base_mro :=
    [PublicKeyParams_class; UserDict; MutableMapping; Mapping; Collection;
     Sized; Iterable; Container; ABC; object_class] in
  match cls with
  | PublicKeyParams_class => base_mro
  | PrivateKeyParams_class => PrivateKeyParams_class :: base_mro
  | DSSPublicKeyParams => DSSPublicKeyParams :: base_mro
  | DSSPrivateKeyParams =>
    DSSPrivateKeyParams :: PrivateKeyParams_class :: DSSPublicKeyParams :: base_mro
  | UserDict => UserDict :: MutableMapping :: mapping_mro
  | MutableMapping => MutableMapping :: mapping_mro
  | Mapping => mapping_mro
  | Collection => [Collection; Sized; Iterable; Container; object_class]
  | Sized => [Sized; object_class]
  | Iterable => [Iterable; object_class]
  | Container => [Container; object_class]
  | ABC => [ABC; object_class]
  | object_class => [object_class]
  | dsa_DSAPublicKey => [dsa_DSAPublicKey; object_class]
  | dsa_DSAPrivateKey => [dsa_DSAPrivateKey; object_class]
  end.

(** [issubclass(a, b)] for classes without virtual subclasses. *)
Definition issubclass (a b : pyclass) : bool := bool_decide (b ∈ mro a).

(** The key objects of [cryptography]'s [dsa] module, by the numbers they
    were built from (the library's own validation of the numbers is not
    modelled). *)
Inductive key_object : Type :=
| DSAPublicKey_object (y p q g : pyval)
| DSAPrivateKey_object (x y p q g : pyval).

Definition DSSPublicKeyParams_FORMAT_INSTRUCTIONS_DICT : FormatInstructionsDict :=
  [("p", MPINT); ("q", MPINT); ("g", MPINT); ("y", MPINT)].

Definition DSSPrivateKeyParams_FORMAT_INSTRUCTIONS_DICT : FormatInstructionsDict :=
  [("p", MPINT); ("q", MPINT); ("g", MPINT); ("y", MPINT); ("x", MPINT)].

Definition dsa_public_key_convert_from_cryptography (key : key_object)
  : option ValuesDict :=
  match key with
  | DSAPublicKey_object y p q g =>
    Some {[ "p" := p; "q" := q; "g" := g; "y" := y ]}
  | DSAPrivateKey_object _ _ _ _ _ => None
  end.

Definition dsa_public_key_convert_to_cryptography (key_params : ValuesDict)
  : result key_object :=
  (y <- getitem key_params "y" ;
   p <- getitem key_params "p" ;
   q <- getitem key_params "q" ;
   g <- getitem key_params "g" ;
   Ok (DSAPublicKey_object y p q g))%result.

Definition dsa_private_key_convert_from_cryptography (key : key_object)
  : option ValuesDict :=
  match key with
  | DSAPrivateKey_object x y p q g =>
    Some {[ "p" := p; "q" := q; "g" := g; "y" := y; "x" := x ]}
  | DSAPublicKey_object _ _ _ _ => None
  end.

Definition dsa_private_key_convert_to_cryptography (key_params : ValuesDict)
  : result key_object :=
  (x <- getitem key_params "x" ;
   y <- getitem key_params "y" ;
   p <- getitem key_params "p" ;
   q <- getitem key_params "q" ;
   g <- getitem key_params "g" ;
   Ok (DSAPrivateKey_object x y p q g))%result.

(** The items of [cls.conversion_functions()] for a parameter class;
    [PrivateKeyParams] inherits the empty dict of [PublicKeyParams]. *)
Definition adapters (cls : pyclass)
  : list (pyclass * ConversionFunctions key_object) :=
  match cls with
  | DSSPublicKeyParams =>
    [(dsa_DSAPublicKey,
      {| object_to_mapping := dsa_public_key_convert_from_cryptography;
         mapping_to_object := dsa_public_key_convert_to_cryptography |})]
  | DSSPrivateKeyParams =>
    [(dsa_DSAPrivateKey,
      {| object_to_mapping := dsa_private_key_convert_from_cryptography;
         mapping_to_object := dsa_private_key_convert_to_cryptography |})]
  | _ => []
  end.

(** [cls.conversion_functions()]. *)
Definition conversion_functions (cls : pyclass)
  : result (list (pyclass * ConversionFunctions key_object)) :=
  match cls with
  | PublicKeyParams_class | PrivateKeyParams_class
  | DSSPublicKeyParams | DSSPrivateKeyParams => Ok (adapters cls)
  | _ => Raise AttributeError
  end.

(** [self.convert_to(destination_class)] on the classes of this module. *)
Definition convert_to :=
  common.convert_to issubclass mro PublicKeyParams_class conversion_functions.

End dss.

(** ** Schemas and mappings *)

(** The names a schema declares. *)
Definition field_names (format_instructions_dict : FormatInstructionsDict)
  : list string :=
  format_instructions_dict.*1.

(** The part of a mapping that a schema names: what a read of the bytes
    written from the mapping gives back. *)
Fixpoint project
    (format_instructions_dict : FormatInstructionsDict) (values : ValuesDict)
  : ValuesDict :=
  match format_instructions_dict with
  | [] => ∅
  | (k, _) :: rest =>
    match values !! k with
    | Some v => <[k := v]> (project rest values)
    | None => project rest values
    end
  end.

(** A mapping that holds no field beyond those of a schema. *)
Definition only_fields
    (format_instructions_dict : FormatInstructionsDict) (values : ValuesDict)
  : Prop :=
  forall name, is_Some (values !! name) ->
               name ∈ field_names format_instructions_dict.

(** ** The envelope codec as a whole *)
Module envelope.
Import key_params key.

(** The encoding that [type(self).from_bytes] reads back:
    [self.pack_public()] for a [PublicKey], [self.pack_private()] for a
    [PrivateKey]. *)
Definition pack (self : Key) : result (list byte) :=
  match type_of self with
  | PublicKey => pack_public self
  | PrivateKey => pack_private self
  end.

(** The schema by which [pack] writes the parameters. *)
Definition pack_schema (self : Key) : result FormatInstructionsDict :=
  match type_of self with
  | PublicKey => Ok (public_format_instructions_dict (class_of (params self)))
  | PrivateKey => private_format_instructions_dict (class_of (params self))
  end.

(** An envelope whose header, parameters and footer hold no field beyond
    those of their schemas. *)
Definition no_extra_fields (self : Key) : Prop :=
  only_fields (header_format_instructions_dict (type_of self)) (header self)
  /\ (forall fmt, pack_schema self = Ok fmt ->
                  only_fields fmt (data (params self)))
  /\ only_fields (footer_format_instructions_dict (type_of self)) (footer self).

(** The fields of the schemas of a parameter class: the public schema
    and, for a private class, the private one. *)
Definition schema_fields (cls : ParamsClass) : list string :=
  field_names (public_format_instructions_dict cls)
  ++ match private_format_instructions_dict cls with
     | Ok fmt => field_names fmt
     | Raise _ => []
     end.

(** [no_extra_fields], as a check that computes. *)
Definition no_extra_fields_b (self : Key) : bool :=
  bool_decide
    (project (header_format_instructions_dict (type_of self)) (header self)
     = header self)
  && match pack_schema self with
     | Ok fmt => bool_decide (project fmt (data (params self)) = data (params self))
     | Raise _ => true
     end
  && bool_decide
       (project (footer_format_instructions_dict (type_of self)) (footer self)
        = footer self).

(** The names of §7 for what the sources raise and warn. The message of
    [NoPrivateForKeyType] is the one [tests/key_params/test_factory.py]
    expects. *)
Definition UnknownKeyType (key_type : pyval) : exn := KeyError key_type.
Definition NoPrivateForKeyType : exn :=
  KeyError (PyStr
    "No subclass of PrivateKeyParams corresponds to the given key type name").
Definition UnsupportedConversion : exn := NotImplementedError.
Definition ExcessBytes : warning := UserWarning "Excess bytes in key".

(** A computation that does not warn of excess bytes. *)
Definition silent {A} (c : W A) : Prop := ExcessBytes ∉ c.1.

End envelope.

(** ** Concrete mappings, envelopes and byte strings *)
Module examples.
Import key_params key.

Definition ed25519_header : ValuesDict := {[ "key_type" := PyStr "ssh-ed25519" ]}.
Definition rsa_header : ValuesDict := {[ "key_type" := PyStr "ssh-rsa" ]}.

Definition public_bytes : list byte := repeat xaa 32.
Definition seed_bytes : list byte := repeat x55 32.

Definition ed25519_public : ValuesDict := {[ "public" := PyBytes public_bytes ]}.

(** Public Ed25519 parameters with a field the schema does not have. *)
Definition ed25519_public_extra : ValuesDict :=
  {[ "public" := PyBytes public_bytes; "origin" := PyStr "token" ]}.

Definition ed25519_private : ValuesDict :=
  {[ "public" := PyBytes public_bytes;
     "private_public" := PyBytes (seed_bytes ++ public_bytes) ]}.

(** Private Ed25519 parameters that lack ['public']. *)
Definition ed25519_private_only : ValuesDict :=
  {[ "private_public" := PyBytes (seed_bytes ++ public_bytes) ]}.

Definition comment_footer : ValuesDict := {[ "comment" := PyStr "test@host" ]}.

(** The six numbers of an RSA private key (p = 61, q = 53). *)
Definition rsa_private : ValuesDict :=
  {[ "n" := PyInt 3233; "e" := PyInt 17; "d" := PyInt 413;
     "iqmp" := PyInt 38; "p" := PyInt 61; "q" := PyInt 53 ]}.

Definition ed25519_key_extra : Key :=
  mkKey PublicKey ed25519_header
        (mkParams Ed25519PublicKeyParams ed25519_public_extra) ∅ None None.

Definition ed25519_blob : list byte :=
  [x00; x00; x00; x0b] ++ list_byte_of_string "ssh-ed25519"
  ++ [x00; x00; x00; x20] ++ public_bytes.

Definition ed25519_key_decoded : Key :=
  mkKey PublicKey ed25519_header
        (mkParams Ed25519PublicKeyParams ed25519_public) ∅
        (Some ed25519_blob) None.

(** A public RSA envelope whose parameters also hold the private numbers. *)
Definition rsa_key_extra : Key :=
  mkKey PublicKey rsa_header (mkParams RSAPublicKeyParams rsa_private) ∅
        None None.

Definition rsa_blob : list byte :=
  [x00; x00; x00; x07] ++ list_byte_of_string "ssh-rsa"
  ++ [x00; x00; x00; x01; x11] ++ [x00; x00; x00; x02; x0c; xa1].

Definition rsa_key_decoded : Key :=
  mkKey PublicKey rsa_header
        (mkParams RSAPublicKeyParams {[ "e" := PyInt 17; "n" := PyInt 3233 ]}) ∅
        (Some (rsa_blob ++ [xff])) (Some [xff]).

Definition ed25519_public_params : PublicKeyParams :=
  mkParams Ed25519PublicKeyParams ed25519_public.

Definition ed25519_key : Key :=
  mkKey PublicKey ed25519_header
        (mkParams Ed25519PublicKeyParams ed25519_public) ∅ None None.

Definition ed25519_private_key : Key :=
  mkKey PrivateKey ed25519_header
        (mkParams Ed25519PrivateKeyParams ed25519_private) comment_footer
        None None.

Definition ed25519_private_blob : list byte :=
  [x00; x00; x00; x0b] ++ list_byte_of_string "ssh-ed25519"
  ++ [x00; x00; x00; x20] ++ public_bytes
  ++ [x00; x00; x00; x40] ++ seed_bytes ++ public_bytes
  ++ [x00; x00; x00; x09] ++ list_byte_of_string "test@host".

(** The numbers of a (toy) DSA key, as a private parameter object. *)
Definition dsa_private_params : common.PublicKeyParams dss.pyclass :=
  common.mkParams dss.DSSPrivateKeyParams
    {[ "p" := PyInt 23; "q" := PyInt 11; "g" := PyInt 4;
       "y" := PyInt 8; "x" := PyInt 7 ]}.

Definition dss_private_chain : list dss.pyclass :=
  [dss.DSSPrivateKeyParams; dss.PrivateKeyParams_class;
   dss.DSSPublicKeyParams; dss.PublicKeyParams_class].

Definition unknown_blob : list byte :=
  [x00; x00; x00; x04] ++ list_byte_of_string "xxxx".

End examples.

(** ** [openssh_key/key_params.py]: [convert_from] and [generate_private_params] *)
Module conversions.
Import key_params.

(** The classes the [conversion_functions] of the module are keyed by. *)
Inductive source_type : Type :=
| RSAPublicKey_class
| RSAPrivateKeyWithSerialization_class
| Ed25519PublicKey_class
| Ed25519PrivateKey_class
| bytes_type
| nacl_PublicKey_class
| nacl_PrivateKey_class.

#[global] Instance source_type_eq_decision : EqDecision source_type.
Proof. solve_decision. Defined.

(** [isinstance(key_object, k)] for the key objects of [key_params] (a key
    object of a library is an instance of the class of the library it was
    built by; a value is an instance of [bytes] when it is a [bytes]). *)
Definition isinstance (o : key_object) (k : source_type) : bool :=
  match o, k with
  | RSAPublicKey_object _ _, RSAPublicKey_class
  | RSAPrivateKey_object _ _ _ _ _ _, RSAPrivateKeyWithSerialization_class
  | Ed25519PublicKey_object _, Ed25519PublicKey_class
  | Ed25519PrivateKey_object _, Ed25519PrivateKey_class
  | nacl_PublicKey_object _, nacl_PublicKey_class
  | nacl_PrivateKey_object _, nacl_PrivateKey_class
  | value_object (PyBytes _), bytes_type => true
  | _, _ => false
  end.

(** [a + b] on the values of a mapping. *)
Definition py_add (a b : pyval) : result pyval :=
  match a, b with
  | PyBytes x, PyBytes y => Ok (PyBytes (x ++ y))
  | PyStr x, PyStr y => Ok (PyStr (x ++ y)%string)
  | PyInt x, PyInt y => Ok (PyInt (x + y))
  | _, _ => Raise TypeError
  end.

(** [cls.__subclasses__()], in the order of the class statements. *)
Definition subclasses (cls : ParamsClass) : list ParamsClass :=
  match cls with
  | RSAPublicKeyParams => [RSAPrivateKeyParams]
  | Ed25519PublicKeyParams => [Ed25519PrivateKeyParams]
  | RSAPrivateKeyParams | Ed25519PrivateKeyParams => []
  end.

(** The schema [convert_from] keeps the fields of:
    [cls.private_format_instructions_dict()] if
    [issubclass(cls, PrivateKeyParams)], else
    [cls.public_format_instructions_dict()]. *)
Definition conversion_schema (cls : ParamsClass) : result FormatInstructionsDict :=
  match cls with
  | RSAPrivateKeyParams | Ed25519PrivateKeyParams =>
    private_format_instructions_dict cls
  | RSAPublicKeyParams | Ed25519PublicKeyParams =>
    Ok (public_format_instructions_dict cls)
  end.

(** [{k: params_dict[k] for k in format_instructions_dict}]. *)
Fixpoint select
    (format_instructions_dict : FormatInstructionsDict) (params_dict : ValuesDict)
  : result ValuesDict :=
  match format_instructions_dict with
  | [] => Ok ∅
  | (k, _) :: rest =>
    (v <- getitem params_dict k ;
     d <- select rest params_dict ;
     Ok (<[k := v]> d))%result
  end.

(** [RSAPrivateKeyParams.PUBLIC_EXPONENT] and [RSAPrivateKeyParams.KEY_SIZE]. *)
Definition PUBLIC_EXPONENT : Z := 65537.
Definition RSA_KEY_SIZE : Z := 4096.

(** [kwargs[key] if key in kwargs else default]. *)
Definition kwargs_get (kwargs : ValuesDict) (key : string) (default : pyval)
  : pyval :=
  match kwargs !! key with
  | Some v => v
  | None => default
  end.

Section library.
(** What the libraries compute and the module only calls: whether
    [import nacl] succeeds; the public bytes of the Ed25519 private key
    with given private bytes
    ([Ed25519PrivateKey.from_private_bytes(b).public_key().public_bytes(...)],
    and [key_object.public_key().public_bytes(...)] for a key object);
    the bytes of the public key of a [nacl] private key
    ([bytes(key_object.public_key)]); and the key that
    [rsa.generate_private_key(public_exponent, key_size, backend)]
    returns. *)
Variable nacl : bool.
Variable ed25519_public_bytes : pyval -> result pyval.
Variable nacl_public_bytes : pyval -> result pyval.
Variable rsa_generate_private_key : pyval -> pyval -> result key_object.

(** The conversion functions of [RSAPublicKeyParams] and
    [RSAPrivateKeyParams]. *)
Definition rsa_public_key (key : key_object) : result ValuesDict :=
  match key with
  | RSAPublicKey_object e n => Ok {[ "e" := e; "n" := n ]}
  | _ => Raise AttributeError
  end.

Definition rsa_private_key (key : key_object) : result ValuesDict :=
  match key with
  | RSAPrivateKey_object p q d iqmp e n =>
    Ok {[ "n" := n; "e" := e; "d" := d; "iqmp" := iqmp; "p" := p; "q" := q ]}
  | _ => Raise AttributeError
  end.

(** The conversion functions of [Ed25519PublicKeyParams]. *)
Definition ed25519_public_key_cryptography (key : key_object)
  : result ValuesDict :=
  match key with
  | Ed25519PublicKey_object public => Ok {[ "public" := public ]}
  | _ => Raise AttributeError
  end.

Definition ed25519_public_key_bytes (key : key_object) : result ValuesDict :=
  match key with
  | value_object v => Ok {[ "public" := v ]}
  | _ => Raise AttributeError
  end.

Definition ed25519_public_key_pynacl (key : key_object) : result ValuesDict :=
  match key with
  | nacl_PublicKey_object public => Ok {[ "public" := public ]}
  | _ => Raise AttributeError
  end.

(** [{'public': public_bytes, 'private_public': private_bytes + public_bytes}]. *)
Definition private_mapping (private_bytes public_bytes : pyval)
  : result ValuesDict :=
  (private_public <- py_add private_bytes public_bytes ;
   Ok {[ "public" := public_bytes; "private_public" := private_public ]})%result.

(** The conversion functions of [Ed25519PrivateKeyParams]. *)
Definition ed25519_private_key_cryptography (key : key_object)
  : result ValuesDict :=
  match key with
  | Ed25519PrivateKey_object private_bytes =>
    (public_bytes <- ed25519_public_bytes private_bytes ;
     private_mapping private_bytes public_bytes)%result
  | _ => Raise AttributeError
  end.

Definition ed25519_private_key_bytes (key : key_object) : result ValuesDict :=
  match key with
  | value_object private_bytes =>
    (public_bytes <- ed25519_public_bytes private_bytes ;
     private_mapping private_bytes public_bytes)%result
  | _ => Raise AttributeError
  end.

Definition ed25519_private_key_pynacl (key : key_object) : result ValuesDict :=
  match key with
  | nacl_PrivateKey_object private_bytes =>
    (public_bytes <- nacl_public_bytes private_bytes ;
     private_mapping private_bytes public_bytes)%result
  | _ => Raise AttributeError
  end.

(** [cls.conversion_functions()], a dict given as the list of its items
    in iteration order. *)
Definition conversion_functions (cls : ParamsClass)
  : list (source_type * (key_object -> result ValuesDict)) :=
  match cls with
  | RSAPublicKeyParams => [(RSAPublicKey_class, rsa_public_key)]
  | RSAPrivateKeyParams =>
    [(RSAPrivateKeyWithSerialization_class, rsa_private_key)]
  | Ed25519PublicKeyParams =>
    [(Ed25519PublicKey_class, ed25519_public_key_cryptography);
     (bytes_type, ed25519_public_key_bytes)]
    ++ (if nacl then [(nacl_PublicKey_class, ed25519_public_key_pynacl)] else [])
  | Ed25519PrivateKeyParams =>
    [(Ed25519PrivateKey_class, ed25519_private_key_cryptography);
     (bytes_type, ed25519_private_key_bytes)]
    ++ (if nacl then [(nacl_PrivateKey_class, ed25519_private_key_pynacl)] else [])
  end.

(** The first loop of [convert_from]: [Some r] when a class of the items
    has the key object as an instance ([r] is what its function returns
    or raises), [None] when none has. *)
Fixpoint first_match
    (items : list (source_type * (key_object -> result ValuesDict)))
    (key : key_object) : option (result ValuesDict) :=
  match items with
  | [] => None
  | (k, v) :: rest =>
    if isinstance key k then Some (v key) else first_match rest key
  end.

(** The second loop of [convert_from], over the subclasses that are left:
    a subclass that raises [NotImplementedError] is passed over, any
    other exception goes through; [dict(...)] of the first parameters
    object a subclass returns, if one does. *)
Fixpoint try_subclasses
    (recurse : ParamsClass -> W PublicKeyParams) (subs : list ParamsClass)
  : W (option ValuesDict) :=
  match subs with
  | [] => wret None
  | subcls :: rest =>
    match recurse subcls with
    | (ws, Ok p) => (ws, Ok (Some (data p)))
    | (ws, Raise NotImplementedError) =>
      (_ <- (ws, Ok tt) ; try_subclasses recurse rest)%warn
    | (ws, Raise e) => (ws, Raise e)
    end
  end.

(** The body of [convert_from], with [recurse] for the calls of
    [subcls.convert_from]. *)
Definition convert_from_body
    (recurse : ParamsClass -> key_object -> W PublicKeyParams)
    (cls : ParamsClass) (key : key_object) : W PublicKeyParams :=
  (params_dict <-
     match first_match (conversion_functions cls) key with
     | Some r => (d <- lift r ; wret (Some d))
     | None => try_subclasses (fun subcls => recurse subcls key) (subclasses cls)
     end ;
   match params_dict with
   | Some d =>
     fmt <- lift (conversion_schema cls) ;
     selected <- lift (select fmt d) ;
     key_params.__init__ cls selected
   | None => lift (Raise NotImplementedError)
   end)%warn.

(** [cls.convert_from(key_object)] with at most [depth] nested calls. *)
Fixpoint convert_from_at
    (depth : nat) (cls : ParamsClass) (key : key_object) : W PublicKeyParams :=
  match depth with
  | O => lift (Raise NotImplementedError)
  | S d => convert_from_body (convert_from_at d) cls key
  end.

(** [cls.convert_from(key_object)]: no class of the module has a subclass
    of a subclass, so the calls nest twice at most. *)
Definition convert_from (cls : ParamsClass) (key : key_object)
  : W PublicKeyParams :=
  convert_from_at 2 cls key.

(** [RSAPrivateKeyParams.generate_private_params] with its keyword
    arguments as a mapping; the mapping
    it builds from [private_key.private_numbers()] is the one of
    [rsa_private_key]. *)
Definition RSAPrivateKeyParams_generate_private_params (kwargs : ValuesDict)
  : W PublicKeyParams :=
  (private_key <-
     lift (rsa_generate_private_key
             (kwargs_get kwargs "e" (PyInt PUBLIC_EXPONENT))
             (kwargs_get kwargs "key_size" (PyInt RSA_KEY_SIZE))) ;
   numbers <- lift (rsa_private_key private_key) ;
   key_params.__init__ RSAPrivateKeyParams numbers)%warn.

(** [Ed25519PrivateKeyParams.generate_private_params()], given the key
    [ed25519.Ed25519PrivateKey.generate()] returned. *)
Definition Ed25519PrivateKeyParams_generate_private_params
    (private_key : key_object) : W PublicKeyParams :=
  (mapping <- lift (ed25519_private_key_cryptography private_key) ;
   key_params.__init__ Ed25519PrivateKeyParams mapping)%warn.

(** Whether a class of the conversion functions of [cls], or of one of
    its subclasses, has the key object as an instance. *)
Definition supported (cls : ParamsClass) (key : key_object) : bool :=
  existsb (fun c => existsb (fun item => isinstance key item.1)
                            (conversion_functions c))
          (cls :: subclasses cls).

End library.

End conversions.

(** * Properties *)

(** ** The byte stream *)
Lemma Z_of_byte_of_Z (z : Z) : Z_of_byte (byte_of_Z z) = z mod 256.
Proof.
  unfold Z_of_byte, byte_of_Z.
  assert (Hr : 0 <= z mod 256 < 256) by (apply Z.mod_pos_bound; lia).
  destruct (Byte.of_N (Z.to_N (z mod 256))) as [y|] eqn:E; simpl.
  - apply Byte.to_of_N in E. rewrite E. lia.
  - apply Byte.of_N_None_iff in E. lia.
Qed.

Lemma le_bytes_length (n : nat) (z : Z) : length (le_bytes n z) = n.
Proof. revert z. induction n as [|n IH]; intros z; simpl; [done|]. by rewrite IH. Qed.

Lemma le_value_le_bytes (n : nat) (z : Z) :
  le_value (le_bytes n z) = z mod 256 ^ Z.of_nat n.
Proof.
  revert z. induction n as [|n IH]; intros z.
  - simpl. by rewrite Z.mod_1_r.
  - cbn [le_bytes le_value]. rewrite IH, Z_of_byte_of_Z.
    rewrite Nat2Z.inj_succ, Z.pow_succ_r by lia.
    rewrite Z.rem_mul_r; [done | lia | apply Z.pow_pos_nonneg; lia].
Qed.

Lemma to_bytes_big_length (n : nat) (z : Z) : length (to_bytes_big n z) = n.
Proof. unfold to_bytes_big. by rewrite length_rev, le_bytes_length. Qed.

Lemma from_bytes_big_to_bytes_big (n : nat) (z : Z) :
  from_bytes_big (to_bytes_big n z) = z mod 256 ^ Z.of_nat n.
Proof.
  unfold from_bytes_big, to_bytes_big. rewrite rev_involutive.
  apply le_value_le_bytes.
Qed.

(** The minimal size is large enough: [z] fits the two's complement
    range of [mpint_size z] bytes. *)
Lemma mpint_size_range (z : Z) :
  z <> 0 ->
  (0 < mpint_size z)%nat /\
  - 256 ^ Z.of_nat (mpint_size z) <= 2 * z < 256 ^ Z.of_nat (mpint_size z).
Proof.
  intros Hz. unfold mpint_size.
  destruct (Z.eqb_spec z 0) as [|_]; [done|].
  set (m := if z <? 0 then - z - 1 else z).
  set (bl := if m =? 0 then 0 else Z.log2 m + 1).
  assert (Hm : 0 <= m) by (subst m; destruct (Z.ltb_spec z 0); lia).
  assert (Hbl : 0 <= bl /\ m < 2 ^ bl).
  { subst bl. destruct (Z.eqb_spec m 0) as [->|Hm0]; [simpl; lia|].
    pose proof (Z.log2_nonneg m). pose proof (Z.log2_spec m ltac:(lia)).
    split; [lia|]. replace (Z.log2 m + 1) with (Z.succ (Z.log2 m)) by lia. lia. }
  destruct Hbl as [Hbl0 Hbl].
  set (n := bl / 8 + 1).
  assert (Hn : 1 <= n) by (subst n; pose proof (Z.div_pos bl 8); lia).
  rewrite Z2Nat.id by lia.
  assert (Hpow : 256 ^ n = 2 * 2 ^ (8 * n - 1)).
  { replace 256 with (2 ^ 8) by reflexivity. rewrite <- Z.pow_mul_r by lia.
    replace (8 * n) with (Z.succ (8 * n - 1)) at 1 by lia.
    rewrite Z.pow_succ_r by lia. done. }
  assert (Hle : 2 ^ bl <= 2 ^ (8 * n - 1)).
  { apply Z.pow_le_mono_r; [lia|]. subst n.
    pose proof (Z.div_mod bl 8 ltac:(lia)).
    pose proof (Z.mod_pos_bound bl 8 ltac:(lia)). lia. }
  split; [lia|]. rewrite Hpow.
  subst m. destruct (Z.ltb_spec z 0); lia.
Qed.

Lemma from_bytes_big_signed_mpint_bytes (z : Z) :
  from_bytes_big_signed (mpint_bytes z) = z.
Proof.
  destruct (decide (z = 0)) as [->|Hz]; [reflexivity|].
  destruct (mpint_size_range z Hz) as [Hpos Hrange].
  unfold from_bytes_big_signed, mpint_bytes.
  pose proof (to_bytes_big_length (mpint_size z) z) as Hlen.
  destruct (to_bytes_big (mpint_size z) z) as [|x l] eqn:E;
    [simpl in Hlen; lia|].
  rewrite <- E, from_bytes_big_to_bytes_big, to_bytes_big_length.
  set (M := 256 ^ Z.of_nat (mpint_size z)) in *.
  assert (HM : 0 < M) by (apply Z.pow_pos_nonneg; lia).
  destruct (Z.ltb_spec (2 * (z mod M)) M) as [Hlt|Hge].
  - destruct (decide (0 <= z)) as [Hnn|Hneg].
    + apply Z.mod_small. lia.
    + assert (Hmod : z mod M = z + M).
      { symmetry. apply Z.mod_unique with (q := -1); lia. }
      lia.
  - destruct (decide (0 <= z)) as [Hnn|Hneg].
    + rewrite Z.mod_small in Hge by lia. lia.
    + assert (Hmod : z mod M = z + M).
      { symmetry. apply Z.mod_unique with (q := -1); lia. }
      lia.
Qed.


Lemma read_fixed_bytes_app (data rest : list byte) :
  read_fixed_bytes (length data) (data ++ rest) = Ok (data, rest).
Proof.
  unfold read_fixed_bytes. rewrite length_app.
  destruct (decide _) as [_|Hn]; [|lia].
  by rewrite take_app_length, drop_app_length.
Qed.

Lemma read_u32_to_bytes_big (n : Z) (rest : list byte) :
  0 <= n < 2 ^ 32 ->
  read_u32 (to_bytes_big 4 n ++ rest) = Ok (n, rest).
Proof.
  intros Hn. unfold read_u32.
  pose proof (read_fixed_bytes_app (to_bytes_big 4 n) rest) as H.
  rewrite to_bytes_big_length in H. rewrite H. simpl.
  rewrite from_bytes_big_to_bytes_big.
  rewrite Z.mod_small; [done|]. change (256 ^ Z.of_nat 4) with (2 ^ 32). lia.
Qed.

Lemma write_pascal_bytes_read (data stream stream' : list byte) :
  write_pascal_bytes data stream = Ok stream' ->
  exists enc, stream' = stream ++ enc /\
    forall rest, read_pascal_bytes (enc ++ rest) = Ok (data, rest).
Proof.
  unfold write_pascal_bytes, write_u32. intros H.
  destruct (decide _) as [Hn|]; [|done]. simpl in H. injection H as <-.
  exists (to_bytes_big 4 (Z.of_nat (length data)) ++ data).
  split; [by rewrite app_assoc|].
  intros rest. unfold read_pascal_bytes.
  rewrite <- app_assoc, read_u32_to_bytes_big by done. simpl.
  rewrite Nat2Z.id. apply read_fixed_bytes_app.
Qed.

Lemma write_from_format_instruction_read
    (instruction : PascalStyleFormatInstruction) (value : pyval)
    (stream stream' : list byte) :
  write_from_format_instruction instruction value stream = Ok stream' ->
  exists enc, stream' = stream ++ enc /\
    forall rest,
      read_from_format_instruction instruction (enc ++ rest) = Ok (value, rest).
Proof.
  intros H.
  destruct instruction, value; simpl in H; try done;
    apply write_pascal_bytes_read in H as (enc & -> & Hread);
    exists enc; (split; [done|]); intros rest;
    unfold read_from_format_instruction; rewrite Hread; simpl.
  - done.
  - by rewrite string_of_list_byte_of_string.
  - by rewrite from_bytes_big_signed_mpint_bytes.
Qed.

(** ** Schemas: what a write looks at, and what a read gives back *)

Lemma project_lookup
    (fmt : FormatInstructionsDict) (values : ValuesDict) (name : string) :
  project fmt values !! name =
  if decide (name ∈ field_names fmt) then values !! name else None.
Proof.
  unfold field_names. induction fmt as [|[k i] fmt IH]; simpl.
  - by rewrite lookup_empty.
  - assert (Hiff : name ∈ k :: fmt.*1 <-> name = k \/ name ∈ fmt.*1)
      by apply elem_of_cons.
    destruct (decide (name = k)) as [->|Hne].
    + rewrite decide_True by apply list_elem_of_here.
      destruct (values !! k) eqn:E; [by rewrite lookup_insert_eq|].
      rewrite IH. by case_decide.
    + destruct (values !! k) eqn:E.
      * rewrite lookup_insert_ne, IH by done.
        repeat case_decide; first [done | exfalso; tauto].
      * rewrite IH. repeat case_decide; first [done | exfalso; tauto].
Qed.

Lemma project_only_fields (fmt : FormatInstructionsDict) (values : ValuesDict) :
  only_fields fmt values -> project fmt values = values.
Proof.
  intros Honly. apply map_eq. intros name. rewrite project_lookup.
  case_decide as Hnot; [done|].
  destruct (values !! name) eqn:E; [|done].
  exfalso. apply Hnot, Honly. by rewrite E.
Qed.

Lemma write_from_format_instructions_dict_read
    (fmt : FormatInstructionsDict) (values : ValuesDict)
    (stream stream' : list byte) :
  write_from_format_instructions_dict fmt values stream = Ok stream' ->
  exists enc, stream' = stream ++ enc /\
    forall rest,
      read_from_format_instructions_dict fmt (enc ++ rest)
      = Ok (project fmt values, rest).
Proof.
  revert stream stream'. induction fmt as [|[k i] fmt IH]; intros stream stream' H.
  - simpl in H. injection H as <-. exists []. split; [by rewrite app_nil_r|done].
  - simpl in H. unfold getitem in H.
    destruct (values !! k) as [v|] eqn:E; [|done]. simpl in H.
    destruct (write_from_format_instruction i v stream) as [s1|] eqn:E1; [|done].
    simpl in H.
    apply write_from_format_instruction_read in E1 as (e1 & -> & Hread1).
    apply IH in H as (e2 & -> & Hread2).
    exists (e1 ++ e2). split; [by rewrite app_assoc|].
    intros rest. simpl. rewrite <- app_assoc, Hread1. simpl.
    rewrite Hread2. simpl. by rewrite E.
Qed.

Lemma write_from_format_instructions_dict_agree
    (fmt : FormatInstructionsDict) (values1 values2 : ValuesDict)
    (stream : list byte) :
  (forall name, name ∈ field_names fmt -> values1 !! name = values2 !! name) ->
  write_from_format_instructions_dict fmt values1 stream
  = write_from_format_instructions_dict fmt values2 stream.
Proof.
  unfold field_names. revert stream.
  induction fmt as [|[k i] fmt IH]; intros stream Hagree; [done|].
  simpl. unfold getitem. rewrite <- (Hagree k) by apply list_elem_of_here.
  destruct (values1 !! k) as [v|]; [|done]. simpl.
  destruct (write_from_format_instruction i v stream) as [s1|]; [|done]. simpl.
  apply IH. intros name Hin. apply Hagree. by apply list_elem_of_further.
Qed.

(** ** Inversion of sequenced computations *)

Lemma bind_Ok {A B} (c : result A) (k : A -> result B) (y : B) :
  bind c k = Ok y -> exists a, c = Ok a /\ k a = Ok y.
Proof. destruct c as [a|e]; simpl; [eauto|done]. Qed.

Lemma wbind_Ok {A B} (c : W A) (k : A -> W B) (ws : list warning) (y : B) :
  wbind c k = (ws, Ok y) ->
  exists ws1 a ws2, c = (ws1, Ok a) /\ k a = (ws2, Ok y) /\ ws = ws1 ++ ws2.
Proof.
  destruct c as [ws1 [a|e]]; simpl; [|done].
  destruct (k a) as [ws2 r] eqn:E. intros [= <- ->]. eauto 6.
Qed.

Lemma lift_Ok {A} (c : result A) (ws : list warning) (a : A) :
  lift c = (ws, Ok a) -> c = Ok a /\ ws = [].
Proof. unfold lift. by intros [= <- ->]. Qed.

Lemma wbind_lift {A B} (c : result A) (k : A -> W B) (a : A) :
  c = Ok a -> wbind (lift c) k = k a.
Proof. intros ->. unfold wbind, lift. by destruct (k a). Qed.

(** ** Construction of parameter objects and of envelopes *)

Lemma params_init_Ok
    (cls : key_params.ParamsClass) (m : ValuesDict)
    (ws : list warning) (self : key_params.PublicKeyParams) :
  key_params.__init__ cls m = (ws, Ok self) -> self = key_params.mkParams cls m.
Proof.
  unfold key_params.__init__. intros H.
  apply wbind_Ok in H as (ws1 & [] & ws2 & _ & H & _).
  unfold wret in H. by injection H as <-.
Qed.

(** The class a key class asks the factory for. *)
Lemma create_key_params_Ok
    (typ : key.KeyClass) (key_type : pyval) (m : ValuesDict)
    (ws : list warning) (p : key_params.PublicKeyParams) :
  key.create_key_params typ key_type m = (ws, Ok p) ->
  match typ with
  | key.PublicKey => key_params.create_public_key_params key_type
  | key.PrivateKey => key_params.create_private_key_params key_type
  end = Ok (key_params.class_of p)
  /\ key_params.data p = m
  /\ key_params.__init__ (key_params.class_of p) m = (ws, Ok p).
Proof.
  intros H. destruct typ; unfold key.create_key_params in H;
    apply wbind_Ok in H as (ws1 & c & ws2 & Hc & H & ->);
    apply lift_Ok in Hc as [Hc ->];
    pose proof (params_init_Ok _ _ _ _ H) as ->; simpl; auto.
Qed.

Lemma key_init_Ok
    (typ : key.KeyClass) (h p f : ValuesDict)
    (ws : list warning) (k : key.Key) :
  key.__init__ typ h p f = (ws, Ok k) ->
  key.type_of k = typ /\ key.header k = h /\ key.footer k = f
  /\ key_params.data (key.params k) = p
  /\ key.bytes k = None /\ key.remainder k = None
  /\ exists key_type,
       getitem h "key_type" = Ok key_type
       /\ match typ with
          | key.PublicKey => key_params.create_public_key_params key_type
          | key.PrivateKey => key_params.create_private_key_params key_type
          end = Ok (key_params.class_of (key.params k)).
Proof.
  unfold key.__init__. intros H.
  apply wbind_Ok in H as (ws1 & [] & ws2 & _ & H & _).
  apply wbind_Ok in H as (ws3 & key_type & ws4 & Hkt & H & _).
  apply lift_Ok in Hkt as [Hkt _].
  apply wbind_Ok in H as (ws5 & p0 & ws6 & Hp & H & _).
  apply wbind_Ok in H as (ws7 & [] & ws8 & _ & H & _).
  unfold wret in H. injection H as <- <-.
  apply create_key_params_Ok in Hp as (Hc & Hd & _). simpl.
  repeat split; try done. eauto.
Qed.

(** ** The envelope codec: decoding what was encoded *)

(** Decoding the encoding of a constructed envelope without extra fields,
    followed by any bytes, rebuilds the envelope with the warnings of its
    construction and leaves those bytes unread. *)
Lemma from_byte_stream_pack
    (typ : key.KeyClass) (h p f : ValuesDict) (ws : list warning)
    (k : key.Key) (bs trailer : list byte) :
  key.__init__ typ h p f = (ws, Ok k) ->
  envelope.no_extra_fields k ->
  envelope.pack k = Ok bs ->
  key.from_byte_stream typ (bs ++ trailer) = (ws, Ok (k, trailer)).
Proof.
  intros Hinit (Hh & Hp & Hf) Hpack.
  pose proof (key_init_Ok _ _ _ _ _ _ Hinit)
    as (Htyp & Hhd & Hft & Hdata & _ & _ & kt & Hkt & Hcls).
  unfold envelope.pack in Hpack. unfold envelope.pack_schema in Hp.
  rewrite Htyp, Hhd in Hh. rewrite Htyp, Hft in Hf.
  rewrite Htyp, Hdata in Hp. rewrite Htyp in Hpack.
  unfold key.from_byte_stream.
  destruct typ.
  - unfold key.pack_public in Hpack. rewrite Hhd, Hft, Hdata in Hpack.
    apply bind_Ok in Hpack as (s1 & H1 & Hpack).
    apply bind_Ok in Hpack as (s2 & H2 & H3).
    apply write_from_format_instructions_dict_read in H1 as (e1 & -> & R1).
    apply write_from_format_instructions_dict_read in H2 as (e2 & -> & R2).
    apply write_from_format_instructions_dict_read in H3 as (e3 & -> & R3).
    rewrite app_nil_l, <- !app_assoc.
    rewrite (wbind_lift _ _ _ (R1 _)). cbn [fst snd].
    rewrite (project_only_fields _ _ Hh).
    rewrite (wbind_lift _ _ _ Hkt).
    assert (Hd : key.create_key_params_dict key.PublicKey kt (e2 ++ e3 ++ trailer)
                 = Ok (p, e3 ++ trailer)).
    { unfold key.create_key_params_dict. rewrite Hcls. simpl bind.
      rewrite R2. by rewrite (project_only_fields _ _ (Hp _ eq_refl)). }
    rewrite (wbind_lift _ _ _ Hd). cbn [fst snd].
    rewrite (wbind_lift _ _ _ (R3 _)). cbn [fst snd].
    rewrite (project_only_fields _ _ Hf), Hinit.
    simpl. by rewrite app_nil_r.
  - unfold key.pack_private in Hpack. rewrite Htyp, Hhd, Hft, Hdata in Hpack.
    apply bind_Ok in Hpack as (s1 & H1 & Hpack).
    apply bind_Ok in Hpack as (fmt & Hfmt & Hpack).
    apply bind_Ok in Hpack as (s2 & H2 & H3).
    apply write_from_format_instructions_dict_read in H1 as (e1 & -> & R1).
    apply write_from_format_instructions_dict_read in H2 as (e2 & -> & R2).
    apply write_from_format_instructions_dict_read in H3 as (e3 & -> & R3).
    rewrite app_nil_l, <- !app_assoc.
    rewrite (wbind_lift _ _ _ (R1 _)). cbn [fst snd].
    rewrite (project_only_fields _ _ Hh).
    rewrite (wbind_lift _ _ _ Hkt).
    assert (Hd : key.create_key_params_dict key.PrivateKey kt (e2 ++ e3 ++ trailer)
                 = Ok (p, e3 ++ trailer)).
    { unfold key.create_key_params_dict. rewrite Hcls. simpl bind.
      rewrite Hfmt. simpl bind.
      rewrite R2. by rewrite (project_only_fields _ _ (Hp _ Hfmt)). }
    rewrite (wbind_lift _ _ _ Hd). cbn [fst snd].
    rewrite (wbind_lift _ _ _ (R3 _)). cbn [fst snd].
    rewrite (project_only_fields _ _ Hf), Hinit.
    simpl. by rewrite app_nil_r.
Qed.

(** ** Only [from_bytes] warns of excess bytes *)

Lemma silent_wret {A} (a : A) : envelope.silent (wret a).
Proof. unfold envelope.silent. simpl. apply not_elem_of_nil. Qed.

Lemma silent_lift {A} (c : result A) : envelope.silent (lift c).
Proof. unfold envelope.silent. simpl. apply not_elem_of_nil. Qed.

Lemma silent_warn (w : warning) :
  w <> envelope.ExcessBytes -> envelope.silent (warn w).
Proof.
  unfold envelope.silent. simpl. intros Hne Hin.
  apply list_elem_of_singleton in Hin. congruence.
Qed.

Lemma silent_wbind {A B} (c : W A) (k : A -> W B) :
  envelope.silent c -> (forall a, envelope.silent (k a)) ->
  envelope.silent (wbind c k).
Proof.
  unfold envelope.silent. destruct c as [ws1 [a|e]]; simpl; [|done].
  intros H1 H2. specialize (H2 a). destruct (k a) as [ws2 r]. simpl in *.
  rewrite elem_of_app. tauto.
Qed.

Ltac silent_step :=
  first
    [ apply silent_wret
    | apply silent_lift
    | apply silent_warn; discriminate
    | apply silent_wbind; [|intros ?]
    | match goal with
      | |- envelope.silent (if ?c then _ else _) => destruct c
      | |- envelope.silent (match ?c with _ => _ end) => destruct c
      end ].

Lemma silent_check_dict (d : ValuesDict) (fmt : FormatInstructionsDict) :
  envelope.silent (check_dict_matches_format_instructions_dict d fmt).
Proof.
  induction fmt as [|[k i] fmt IH]; simpl; [apply silent_wret|].
  apply silent_wbind; [|intros _; apply IH].
  repeat silent_step.
Qed.

Lemma silent_params_init (cls : key_params.ParamsClass) (m : ValuesDict) :
  envelope.silent (key_params.__init__ cls m).
Proof.
  unfold key_params.__init__, key_params.check_params_are_valid.
  apply silent_wbind; [|intros _; apply silent_wret].
  destruct cls; simpl;
    unfold key_params.Ed25519PrivateKeyParams_check_params_are_valid,
           key_params.Ed25519PublicKeyParams_check_params_are_valid,
           key_params.PrivateKeyParams_check_params_are_valid,
           key_params.PublicKeyParams_check_params_are_valid;
    repeat first [apply silent_check_dict | silent_step].
Qed.

Lemma silent_key_init (typ : key.KeyClass) (h p f : ValuesDict) :
  envelope.silent (key.__init__ typ h p f).
Proof.
  unfold key.__init__, key.create_key_params.
  repeat first [apply silent_check_dict | apply silent_params_init | silent_step].
Qed.

Lemma only_fields_project (fmt : FormatInstructionsDict) (values : ValuesDict) :
  project fmt values = values -> only_fields fmt values.
Proof.
  intros Heq name [v Hv]. rewrite <- Heq, project_lookup in Hv.
  by case_decide.
Qed.

Lemma no_extra_fields_b_sound (k : key.Key) :
  envelope.no_extra_fields_b k = true -> envelope.no_extra_fields k.
Proof.
  unfold envelope.no_extra_fields_b, envelope.no_extra_fields.
  rewrite !andb_true_iff, !bool_decide_eq_true. intros [[Hh Hp] Hf].
  repeat split; try by apply only_fields_project.
  intros fmt Hfmt. rewrite Hfmt in Hp.
  apply only_fields_project. by apply bool_decide_eq_true in Hp.
Qed.


(** [from_bytes] on such bytes, by whether anything follows the encoding. *)
Lemma from_bytes_pack_exact
    (typ : key.KeyClass) (h p f : ValuesDict) (ws : list warning)
    (k : key.Key) (bs : list byte) :
  key.__init__ typ h p f = (ws, Ok k) ->
  envelope.no_extra_fields k ->
  envelope.pack k = Ok bs ->
  key.from_bytes typ bs
  = (ws, Ok (key.mkKey (key.type_of k) (key.header k) (key.params k)
                       (key.footer k) (Some bs) (key.remainder k))).
Proof.
  intros Hinit Hno Hpack.
  pose proof (from_byte_stream_pack _ _ _ _ _ _ _ [] Hinit Hno Hpack) as H.
  rewrite app_nil_r in H. unfold key.from_bytes. rewrite H.
  simpl. by rewrite app_nil_r.
Qed.

Lemma from_bytes_pack_trailer
    (typ : key.KeyClass) (h p f : ValuesDict) (ws : list warning)
    (k : key.Key) (bs trailer : list byte) :
  key.__init__ typ h p f = (ws, Ok k) ->
  envelope.no_extra_fields k ->
  envelope.pack k = Ok bs ->
  trailer <> [] ->
  key.from_bytes typ (bs ++ trailer)
  = (ws ++ [envelope.ExcessBytes],
     Ok (key.mkKey (key.type_of k) (key.header k) (key.params k)
                   (key.footer k) (Some (bs ++ trailer)) (Some trailer))).
Proof.
  intros Hinit Hno Hpack Hne.
  pose proof (from_byte_stream_pack _ _ _ _ _ _ _ trailer Hinit Hno Hpack) as H.
  unfold key.from_bytes. rewrite H. cbn [wbind fst snd].
  destruct (decide (0 < length trailer)%nat) as [_|Hlen].
  - simpl. done.
  - destruct trailer; [done|simpl in Hlen; lia].
Qed.

Lemma key_eq_attributes (k : key.Key) (bs rem : option (list byte)) :
  key.__eq__ (key.mkKey (key.type_of k) (key.header k) (key.params k)
                    (key.footer k) bs rem) k = true.
Proof.
  unfold key.__eq__, key_params.__eq__. simpl.
  by rewrite !bool_decide_eq_true_2.
Qed.

(** * The claims *)

Import key_params key envelope examples.

(** ** Envelope round trip *)

(** C1, as amended. An envelope built by the constructor whose header,
    parameters and footer hold no field beyond their schemas, and whose
    encoding succeeds, is decoded from its encoding to an envelope equal to
    it ([PublicKey.from_bytes] of [pack_public], [PrivateKey.from_bytes] of
    [pack_private]); the decoding emits the warnings of the construction
    and sets no [remainder]. *)
Theorem envelope_round_trip
    (typ : KeyClass) (h p f : ValuesDict) (ws : list warning)
    (k : Key) (bs : list byte) :
  key.__init__ typ h p f = (ws, Ok k) ->
  no_extra_fields k ->
  pack k = Ok bs ->
  exists k', from_bytes typ bs = (ws, Ok k')
             /\ key.__eq__ k' k = true /\ remainder k' = None.
Proof.
  intros Hinit Hno Hpack. eexists. split.
  - by apply (from_bytes_pack_exact typ h p f).
  - split; [apply key_eq_attributes|].
    simpl. by apply key_init_Ok in Hinit as (_ & _ & _ & _ & _ & ? & _).
Qed.

Lemma envelope_round_trip_witness :
  exists k', from_bytes PrivateKey ed25519_private_blob = ([], Ok k')
             /\ key.__eq__ k' ed25519_private_key = true /\ remainder k' = None.
Proof.
  apply (envelope_round_trip PrivateKey ed25519_header ed25519_private
                             comment_footer [] ed25519_private_key
                             ed25519_private_blob).
  - vm_compute. reflexivity.
  - apply no_extra_fields_b_sound. vm_compute. reflexivity.
  - vm_compute. reflexivity.
Defined.

(** C1, as stated, fails: the constructor accepts (without a warning)
    public Ed25519 parameters that hold a field beyond the schema; the
    encoding does not write that field, so the decoded envelope lacks it
    and is not equal to the original. *)
Lemma round_trip_loses_extra_fields :
  key.__init__ PublicKey ed25519_header ed25519_public_extra ∅
  = ([], Ok ed25519_key_extra)
  /\ pack ed25519_key_extra = Ok ed25519_blob
  /\ from_bytes PublicKey ed25519_blob = ([], Ok ed25519_key_decoded)
  /\ key.__eq__ ed25519_key_decoded ed25519_key_extra = false.
Proof. vm_compute. repeat split. Qed.

(** ** Excess bytes *)

(** C6, as amended. For an envelope built by the constructor that holds no
    field beyond its schemas and whose encoding succeeds, and a non-empty
    trailer: decoding the encoding followed by the trailer succeeds, gives
    an envelope equal to the original whose [remainder] is the trailer, and
    warns of excess bytes after the warnings of the construction; decoding
    the encoding alone gives no such warning and no [remainder]. *)
Theorem excess_bytes_preserved
    (typ : KeyClass) (h p f : ValuesDict) (ws : list warning)
    (k : Key) (bs trailer : list byte) :
  key.__init__ typ h p f = (ws, Ok k) ->
  no_extra_fields k ->
  pack k = Ok bs ->
  trailer <> [] ->
  (exists k', from_bytes typ (bs ++ trailer) = (ws ++ [ExcessBytes], Ok k')
              /\ key.__eq__ k' k = true /\ remainder k' = Some trailer)
  /\ (exists k'', from_bytes typ bs = (ws, Ok k'')
                  /\ (ExcessBytes ∉ ws) /\ remainder k'' = None).
Proof.
  intros Hinit Hno Hpack Hne. split.
  - eexists. split; [by apply (from_bytes_pack_trailer typ h p f)|].
    split; [apply key_eq_attributes|done].
  - eexists. split; [by apply (from_bytes_pack_exact typ h p f)|].
    split.
    + pose proof (silent_key_init typ h p f) as Hs.
      unfold silent in Hs. by rewrite Hinit in Hs.
    + simpl. by apply key_init_Ok in Hinit as (_ & _ & _ & _ & _ & ? & _).
Qed.

Lemma excess_bytes_preserved_witness :
  (exists k', from_bytes PublicKey (ed25519_blob ++ [x0a])
              = ([] ++ [ExcessBytes], Ok k')
              /\ key.__eq__ k' ed25519_key = true /\ remainder k' = Some [x0a])
  /\ (exists k'', from_bytes PublicKey ed25519_blob = ([], Ok k'')
                  /\ (ExcessBytes ∉ []) /\ remainder k'' = None).
Proof.
  apply (excess_bytes_preserved PublicKey ed25519_header ed25519_public ∅ []
                                ed25519_key ed25519_blob [x0a]).
  - vm_compute. reflexivity.
  - apply no_extra_fields_b_sound. vm_compute. reflexivity.
  - vm_compute. reflexivity.
  - discriminate.
Defined.

(** C6, as stated, fails: a public RSA envelope whose parameters also hold
    the private numbers is constructed without a warning; decoding its
    encoding followed by one byte keeps that byte as [remainder] and warns,
    but the envelope it returns is not equal to the original. *)
Lemma excess_bytes_extra_fields_lost :
  key.__init__ PublicKey rsa_header rsa_private ∅ = ([], Ok rsa_key_extra)
  /\ pack rsa_key_extra = Ok rsa_blob
  /\ from_bytes PublicKey (rsa_blob ++ [xff])
     = ([ExcessBytes], Ok rsa_key_decoded)
  /\ remainder rsa_key_decoded = Some [xff]
  /\ key.__eq__ rsa_key_decoded rsa_key_extra = false.
Proof. vm_compute. repeat split. Qed.

(** ** Extra fields *)

Lemma key_init_class
    (typ : KeyClass) (h p1 p2 f : ValuesDict) (ws1 ws2 : list warning)
    (k1 k2 : Key) :
  key.__init__ typ h p1 f = (ws1, Ok k1) ->
  key.__init__ typ h p2 f = (ws2, Ok k2) ->
  class_of (params k1) = class_of (params k2).
Proof.
  intros H1 H2.
  apply key_init_Ok in H1 as (_ & _ & _ & _ & _ & _ & kt1 & Hkt1 & Hc1).
  apply key_init_Ok in H2 as (_ & _ & _ & _ & _ & _ & kt2 & Hkt2 & Hc2).
  rewrite Hkt1 in Hkt2. injection Hkt2 as <-.
  rewrite Hc1 in Hc2. by injection Hc2.
Qed.

(** C9. Two envelopes constructed from the same header and footer and from
    parameter mappings that agree on every field of the schemas of the
    selected variant (and differ in other fields only) keep their mappings
    as given, extra fields included, and have the same encodings:
    [pack_public] and [pack_private] write the fields of the schema only. *)
Theorem extra_fields_not_written
    (typ : KeyClass) (h f m1 m2 : ValuesDict) (ws1 ws2 : list warning)
    (k1 k2 : Key) :
  key.__init__ typ h m1 f = (ws1, Ok k1) ->
  key.__init__ typ h m2 f = (ws2, Ok k2) ->
  (forall name,
     name ∈ schema_fields (class_of (params k1)) ->
     m1 !! name = m2 !! name) ->
  data (params k1) = m1 /\ data (params k2) = m2
  /\ pack_public k1 = pack_public k2
  /\ pack_private k1 = pack_private k2.
Proof.
  intros H1 H2 Hagree.
  pose proof (key_init_class _ _ _ _ _ _ _ _ _ H1 H2) as Hcls.
  apply key_init_Ok in H1 as (Ht1 & Hh1 & Hf1 & Hd1 & _).
  apply key_init_Ok in H2 as (Ht2 & Hh2 & Hf2 & Hd2 & _).
  unfold schema_fields in Hagree. setoid_rewrite elem_of_app in Hagree.
  repeat split; try done.
  - unfold pack_public. rewrite Hh1, Hh2, Hf1, Hf2, Hd1, Hd2, <- Hcls.
    destruct (write_from_format_instructions_dict _ h []) as [s1|]; [|done].
    simpl. rewrite (write_from_format_instructions_dict_agree _ m1 m2); [done|].
    intros name Hin. apply Hagree. by left.
  - unfold pack_private. rewrite Ht1, Ht2, Hh1, Hh2, Hf1, Hf2, Hd1, Hd2, <- Hcls.
    destruct typ; [done|].
    destruct (write_from_format_instructions_dict _ h []) as [s1|]; [|done].
    simpl.
    destruct (private_format_instructions_dict (class_of (params k1)))
      as [fmt|] eqn:Efmt; [|done].
    simpl. rewrite (write_from_format_instructions_dict_agree _ m1 m2); [done|].
    intros name Hin. apply Hagree. by right.
Qed.

Lemma extra_fields_not_written_witness :
  data (params ed25519_key_extra) = ed25519_public_extra
  /\ data (params ed25519_key) = ed25519_public
  /\ pack_public ed25519_key_extra = pack_public ed25519_key
  /\ pack_private ed25519_key_extra = pack_private ed25519_key.
Proof.
  apply (extra_fields_not_written PublicKey ed25519_header ∅
           ed25519_public_extra ed25519_public [] []).
  - vm_compute. reflexivity.
  - vm_compute. reflexivity.
  - intros name Hin. vm_compute in Hin.
    apply list_elem_of_singleton in Hin. subst name.
    vm_compute. reflexivity.
Defined.

(** ** Unknown key types *)

(** C7. When the header of the input parses to a [key_type] that has no
    entry in the registry, decoding (as a public or as a private key)
    raises the [KeyError] of the registry lookup, the unknown-key-type
    failure, without a warning, and returns no envelope. *)
Theorem decode_unknown_key_type
    (typ : KeyClass) (byte_string rest : list byte) (s : string) :
  read_from_format_instructions_dict
    (header_format_instructions_dict typ) byte_string
  = Ok ({[ "key_type" := PyStr s ]}, rest) ->
  _KEY_TYPE_MAPPING !! s = None ->
  from_bytes typ byte_string = ([], Raise (UnknownKeyType (PyStr s))).
Proof.
  intros Hread Hnone. unfold from_bytes, from_byte_stream.
  rewrite (wbind_lift _ _ _ Hread). cbn [fst snd].
  assert (Hkt : getitem ({[ "key_type" := PyStr s ]} : ValuesDict) "key_type"
                = Ok (PyStr s)).
  { unfold getitem. by rewrite lookup_singleton_eq. }
  rewrite (wbind_lift _ _ _ Hkt).
  unfold create_key_params_dict, create_public_key_params,
    create_private_key_params, mapping_getitem.
  rewrite Hnone. by destruct typ.
Qed.

Lemma decode_unknown_key_type_witness :
  from_bytes PublicKey unknown_blob = ([], Raise (UnknownKeyType (PyStr "xxxx"))).
Proof.
  apply (decode_unknown_key_type PublicKey unknown_blob [] "xxxx").
  - vm_compute. reflexivity.
  - vm_compute. reflexivity.
Defined.

(** ** Equality of envelopes *)

(** C10. [PublicKey.__eq__] is true exactly when the two operands have the
    same class and equal header, parameters and footer; hence a
    [PublicKey] and a [PrivateKey] are never equal, whichever is the left
    operand and whatever they hold. *)
Theorem key_eq_same_type :
  (forall a b : Key,
     key.__eq__ a b = true <->
     type_of a = type_of b /\ header a = header b
     /\ key_params.__eq__ (params a) (params b) = true
     /\ footer a = footer b)
  /\ (forall (h h' f f' : ValuesDict) (p p' : PublicKeyParams)
             (bs bs' rem rem' : option (list byte)),
        key.__eq__ (mkKey PublicKey h p f bs rem) (mkKey PrivateKey h' p' f' bs' rem')
        = false
        /\ key.__eq__ (mkKey PrivateKey h' p' f' bs' rem') (mkKey PublicKey h p f bs rem)
           = false).
Proof.
  split.
  - intros a b. unfold key.__eq__.
    rewrite !andb_true_iff, !bool_decide_eq_true. tauto.
  - intros. unfold key.__eq__. simpl. done.
Qed.

(** ** Equality of parameter objects *)

(** C4, as amended. Two parameter objects are equal exactly when their
    name-to-value mappings are identical; their variants play no part (in
    [key_params.py] and in [key_params/common.py] alike). *)
Theorem params_eq_iff_same_items :
  (forall a b : key_params.PublicKeyParams,
     key_params.__eq__ a b = true <-> data a = data b)
  /\ (forall (pyclass : Type) (a b : common.PublicKeyParams pyclass),
        common.__eq__ a b = true <-> common.data a = common.data b).
Proof.
  split; intros; unfold key_params.__eq__, common.__eq__; apply bool_decide_eq_true.
Qed.

(** C4, as stated, fails: the six numbers of an RSA key are accepted
    without a warning by [RSAPublicKeyParams] and by [RSAPrivateKeyParams],
    and the two objects, of different variants, are equal. *)
Lemma params_eq_across_variants :
  key_params.__init__ RSAPublicKeyParams rsa_private
  = ([], Ok (mkParams RSAPublicKeyParams rsa_private))
  /\ key_params.__init__ RSAPrivateKeyParams rsa_private
     = ([], Ok (mkParams RSAPrivateKeyParams rsa_private))
  /\ RSAPublicKeyParams <> RSAPrivateKeyParams
  /\ key_params.__eq__ (mkParams RSAPublicKeyParams rsa_private)
                   (mkParams RSAPrivateKeyParams rsa_private) = true
  /\ key_params.__eq__ (mkParams RSAPrivateKeyParams rsa_private)
                   (mkParams RSAPublicKeyParams rsa_private) = true.
Proof. vm_compute. repeat split. discriminate. Qed.

(** ** The factory *)

Lemma registry_entries (s : string) :
  is_Some (_KEY_TYPE_MAPPING !! s) <-> s = "ssh-rsa" \/ s = "ssh-ed25519".
Proof.
  unfold _KEY_TYPE_MAPPING.
  destruct (decide (s = "ssh-rsa")) as [->|Hrsa].
  { rewrite lookup_insert_eq. split; [by left|by eauto]. }
  rewrite lookup_insert_ne by done.
  destruct (decide (s = "ssh-ed25519")) as [->|Hed].
  { rewrite lookup_singleton_eq. split; [by right|by eauto]. }
  rewrite lookup_singleton_ne by done.
  split; [intros [? ?]; done | intros [?|?]; done].
Qed.

(** C2, on the code. Each lookup either returns the class registered for
    the key type or raises the [KeyError] of the missing entry, and the
    two lookups fail together. For the certificate identifier
    ['ssh-rsa-cert-v01@openssh.com'] the private lookup raises that
    [KeyError], the failure of any unknown key type, and not the error
    [tests/key_params/test_factory.py] expects. *)
Theorem create_private_key_params_certificate :
  (forall key_type : pyval,
     (exists classes,
        mapping_getitem key_type = Ok classes
        /\ create_public_key_params key_type = Ok (publicKeyParamsClass classes)
        /\ create_private_key_params key_type = Ok (privateKeyParamsClass classes))
     \/ (create_public_key_params key_type = Raise (UnknownKeyType key_type)
         /\ create_private_key_params key_type = Raise (UnknownKeyType key_type)))
  /\ create_private_key_params (PyStr "ssh-rsa-cert-v01@openssh.com")
     = Raise (UnknownKeyType (PyStr "ssh-rsa-cert-v01@openssh.com"))
  /\ create_private_key_params (PyStr "xxxx")
     = Raise (UnknownKeyType (PyStr "xxxx"))
  /\ UnknownKeyType (PyStr "ssh-rsa-cert-v01@openssh.com") <> NoPrivateForKeyType.
Proof.
  split; [|by vm_compute].
  intros key_type. unfold create_public_key_params, create_private_key_params.
  destruct (mapping_getitem key_type) as [classes|e] eqn:E; simpl.
  - left. eauto.
  - right. unfold mapping_getitem in E.
    destruct key_type as [| |s|]; try (injection E as <-; done).
    destruct (_KEY_TYPE_MAPPING !! s); [done|]. by injection E as <-.
Qed.

(** C5, on the code. The registry has entries for ['ssh-rsa'] and
    ['ssh-ed25519'] and for no other identifier; the public lookup of
    ['ssh-dss'] raises the [KeyError] of the missing entry. *)
Theorem create_public_key_params_ssh_dss :
  (forall s : string,
     is_Some (_KEY_TYPE_MAPPING !! s) <-> s = "ssh-rsa" \/ s = "ssh-ed25519")
  /\ create_public_key_params (PyStr "ssh-dss")
     = Raise (UnknownKeyType (PyStr "ssh-dss"))
  /\ create_private_key_params (PyStr "ssh-dss")
     = Raise (UnknownKeyType (PyStr "ssh-dss")).
Proof. split; [apply registry_entries|by vm_compute]. Qed.

(** ** Construction of parameter objects *)

(** C3, on the code. Public Ed25519 parameters with a ['public'] of 31
    bytes are constructed, with the warning that names the length 32; but
    private Ed25519 parameters that hold ['private_public'] and lack
    ['public'] are not constructed: after the two schema warnings the
    check reads [self.data['public']] and raises [KeyError]. Nor are
    public Ed25519 parameters whose ['public'] is an integer: after the
    schema warning the check takes its [len] and raises [TypeError]. *)
Theorem ed25519_private_init_without_public :
  key_params.__init__ Ed25519PublicKeyParams
                      {[ "public" := PyBytes (repeat xaa 31) ]}
  = ([UserWarning "Public key not of length 32"],
     Ok (mkParams Ed25519PublicKeyParams
                  {[ "public" := PyBytes (repeat xaa 31) ]}))
  /\ key_params.__init__ Ed25519PrivateKeyParams ed25519_private_only
     = ([SchemaWarning "public" BYTES; SchemaWarning "public" BYTES],
        Raise (KeyError (PyStr "public")))
  /\ key_params.__init__ Ed25519PublicKeyParams {[ "public" := PyInt 32 ]}
     = ([SchemaWarning "public" BYTES], Raise TypeError).
Proof. by vm_compute. Qed.

(** ** Conversions *)

Lemma find_app_first {A} (P : A -> bool) (l1 l2 : list A) :
  find P (l1 ++ l2)
  = match find P l1 with Some x => Some x | None => find P l2 end.
Proof.
  induction l1 as [|x l1 IH]; simpl; [done|]. by destruct (P x).
Qed.

Section convert_to.
Context {pyclass key_object : Type}.
Variable issubclass : pyclass -> pyclass -> bool.
Variable mro : pyclass -> list pyclass.
Variable PublicKeyParams_class : pyclass.
Variable conversion_functions :
  pyclass -> result (list (pyclass * common.ConversionFunctions key_object)).
Variable adapters :
  pyclass -> list (pyclass * common.ConversionFunctions key_object).

(** The inner loop finds the first item whose class is a subclass of
    the destination. *)
Lemma search_candidates_find
    (items : list (pyclass * common.ConversionFunctions key_object))
    (target : pyclass) (self : common.PublicKeyParams pyclass) :
  common.search_candidates issubclass items target self
  = (fun item => common.mapping_to_object item.2 (common.data self))
    <$> find (fun item => issubclass item.1 target) items.
Proof.
  induction items as [|[c fs] items IH]; simpl; [done|].
  by destruct (issubclass c target).
Qed.

(** The outer loop, over a chain of subclasses of [PublicKeyParams]
    followed by nothing or by a class that is not one. *)
Lemma mro_walk_chain
    (chain rest : list pyclass)
    (target : pyclass) (self : common.PublicKeyParams pyclass) :
  Forall (fun c => issubclass c PublicKeyParams_class = true) chain ->
  Forall (fun c => conversion_functions c = Ok (adapters c)) chain ->
  match rest with
  | [] => True
  | c :: _ => issubclass c PublicKeyParams_class = false
  end ->
  common.mro_walk issubclass PublicKeyParams_class conversion_functions
                  (chain ++ rest) target self
  = common.convert_to_spec issubclass chain adapters self target.
Proof.
  intros Hsub Hconv Hrest. unfold common.convert_to_spec, first_adapter.
  induction chain as [|c chain IH]; simpl.
  - destruct rest as [|c rest]; [done|]. simpl. by rewrite Hrest.
  - apply Forall_cons in Hsub as [Hc Hsub].
    apply Forall_cons in Hconv as [Hcf Hconv].
    rewrite Hc, Hcf. simpl. rewrite search_candidates_find, find_app_first.
    destruct (find _ (adapters c)) as [[c' fs]|]; simpl; [done|].
    by apply IH.
Qed.
End convert_to.

(** The [convert_to] methods of [key_params.py] compare the destination
    with the types they name, level after level. *)
Lemma flat_convert_to_by_equality
    (nacl : bool) (self : key_params.PublicKeyParams) (target : pytype) :
  key_params.convert_to nacl self (Class target)
  = match first_adapter (fun a b => bool_decide (a = b))
                        (map (key_params.adapters nacl)
                             (inheritance_chain (class_of self)))
                        target with
    | Some conversion => conversion self
    | None => Raise UnsupportedConversion
    end.
Proof. destruct self as [cls d]. by destruct cls, target, nacl. Qed.

(** C8, as amended. For a parameter object of a class built on
    [key_params/common.py], [convert_to] with a class as its argument
    walks the method resolution order of the class of the object from
    that class to [PublicKeyParams] (every class of that chain being a
    subclass of [PublicKeyParams], and the class after it, if any, not
    being one); at each level it looks through the conversion functions
    of the level, in order, and invokes the first one whose class is a
    subclass of the argument; when no level has one it raises
    [NotImplementedError]. For a parameter object of the classes of
    [key_params.py] the walk is the same, from the class of the object to
    the base, but a level invokes a conversion only when the argument is
    equal to a type the level names; otherwise [NotImplementedError] is
    raised. *)
Theorem convert_to_walks_inheritance_chain :
  (forall (pyclass key_object : Type)
          (issubclass : pyclass -> pyclass -> bool)
          (mro : pyclass -> list pyclass)
          (PublicKeyParams_class : pyclass)
          (conversion_functions :
             pyclass ->
             result (list (pyclass * common.ConversionFunctions key_object)))
          (adapters :
             pyclass -> list (pyclass * common.ConversionFunctions key_object))
          (self : common.PublicKeyParams pyclass) (target : pyclass)
          (chain rest : list pyclass),
     mro (common.class_of self) = chain ++ rest ->
     head chain = Some (common.class_of self) ->
     last chain = Some PublicKeyParams_class ->
     Forall (fun c => issubclass c PublicKeyParams_class = true) chain ->
     Forall (fun c => conversion_functions c = Ok (adapters c)) chain ->
     match rest with
     | [] => True
     | c :: _ => issubclass c PublicKeyParams_class = false
     end ->
     common.convert_to issubclass mro PublicKeyParams_class conversion_functions
                       self (Class target)
     = match first_adapter issubclass (map adapters chain) target with
       | Some functions =>
         common.mapping_to_object functions (common.data self)
       | None => Raise UnsupportedConversion
       end)
  /\ (forall (nacl : bool) (self : key_params.PublicKeyParams) (target : pytype),
        key_params.convert_to nacl self (Class target)
        = match first_adapter (fun a b => bool_decide (a = b))
                              (map (key_params.adapters nacl)
                                   (inheritance_chain (class_of self)))
                              target with
          | Some conversion => conversion self
          | None => Raise UnsupportedConversion
          end).
Proof.
  split.
  - intros pyclass key_object issubclass mro PublicKeyParams_class
           conversion_functions adapters self target chain rest
           Hmro _ _ Hsub Hconv Hrest.
    unfold common.convert_to. rewrite Hmro. by apply mro_walk_chain.
  - apply flat_convert_to_by_equality.
Qed.

Lemma convert_to_walks_inheritance_chain_witness :
  dss.convert_to dsa_private_params (Class dss.dsa_DSAPublicKey)
  = match first_adapter dss.issubclass (map dss.adapters dss_private_chain)
                          dss.dsa_DSAPublicKey with
    | Some functions =>
      common.mapping_to_object functions (common.data dsa_private_params)
    | None => Raise UnsupportedConversion
    end.
Proof.
  apply (proj1 convert_to_walks_inheritance_chain
           dss.pyclass dss.key_object
           dss.issubclass dss.mro dss.PublicKeyParams_class
           dss.conversion_functions dss.adapters dsa_private_params
           dss.dsa_DSAPublicKey dss_private_chain
           [dss.UserDict; dss.MutableMapping; dss.Mapping; dss.Collection;
            dss.Sized; dss.Iterable; dss.Container; dss.ABC; dss.object_class]).
  - reflexivity.
  - reflexivity.
  - reflexivity.
  - repeat constructor.
  - repeat constructor.
  - reflexivity.
Defined.

(** C8, as stated, fails on the classes of [key_params.py]: public
    Ed25519 parameters convert to [bytes], and [bytes] is a subclass of
    [object], so the search the claim describes finds an adapter for the
    type token [object] (the first of the level, to an Ed25519 public
    key); [convert_to(object)] raises [NotImplementedError]. *)
Lemma convert_to_supertype_unsupported :
  key_params.issubclass bytes_class key_params.object_class = true
  /\ key_params.convert_to false ed25519_public_params (Class bytes_class)
     = Ok (value_object (PyBytes public_bytes))
  /\ match first_adapter key_params.issubclass
                         (map (key_params.adapters false)
                              (inheritance_chain Ed25519PublicKeyParams))
                         key_params.object_class with
     | Some conversion => conversion ed25519_public_params
     | None => Raise UnsupportedConversion
     end = Ok (Ed25519PublicKey_object (PyBytes public_bytes))
  /\ key_params.convert_to false ed25519_public_params
                           (Class key_params.object_class)
     = Raise UnsupportedConversion.
Proof. vm_compute. repeat split. Qed.

(** ** Further properties of the sources *)

(** The factory on the two registered key types
    ([tests/key_params/test_factory.py], the RSA and Ed25519 tests). *)
Theorem factory_registered_key_types :
  create_public_key_params (PyStr "ssh-rsa") = Ok RSAPublicKeyParams
  /\ create_private_key_params (PyStr "ssh-rsa") = Ok RSAPrivateKeyParams
  /\ create_public_key_params (PyStr "ssh-ed25519") = Ok Ed25519PublicKeyParams
  /\ create_private_key_params (PyStr "ssh-ed25519") = Ok Ed25519PrivateKeyParams.
Proof. by vm_compute. Qed.

(** An envelope built by the constructor has the class it was asked for,
    keeps the header, the parameter mapping and the footer as given, has
    neither [bytes] nor [remainder], and its parameters are an object of
    the class the factory gives for [header['key_type']]: the public
    class for a [PublicKey], the private class for a [PrivateKey]. *)
Theorem constructor_selects_variant
    (typ : KeyClass) (h p f : ValuesDict) (ws : list warning) (k : Key) :
  key.__init__ typ h p f = (ws, Ok k) ->
  type_of k = typ /\ header k = h /\ footer k = f
  /\ data (params k) = p
  /\ bytes k = None /\ remainder k = None
  /\ exists key_type,
       getitem h "key_type" = Ok key_type
       /\ match typ with
          | PublicKey => create_public_key_params key_type
          | PrivateKey => create_private_key_params key_type
          end = Ok (class_of (params k)).
Proof. apply key_init_Ok. Qed.

Lemma constructor_selects_variant_witness :
  type_of ed25519_private_key = PrivateKey
  /\ header ed25519_private_key = ed25519_header
  /\ footer ed25519_private_key = comment_footer
  /\ data (params ed25519_private_key) = ed25519_private
  /\ bytes ed25519_private_key = None /\ remainder ed25519_private_key = None
  /\ exists key_type,
       getitem ed25519_header "key_type" = Ok key_type
       /\ create_private_key_params key_type
          = Ok (class_of (params ed25519_private_key)).
Proof.
  apply (constructor_selects_variant PrivateKey ed25519_header ed25519_private
                                     comment_footer []).
  vm_compute. reflexivity.
Defined.



(** [convert_to] with an argument that is not a class raises
    [ValueError], for the classes of [key_params.py] and for those built
    on [key_params/common.py]. *)
Theorem convert_to_requires_class :
  (forall (nacl : bool) (self : key_params.PublicKeyParams),
     key_params.convert_to nacl self NotAClass
     = Raise (ValueError "destination_class must be a class"))
  /\ (forall (pyclass key_object : Type)
             (issubclass : pyclass -> pyclass -> bool)
             (mro : pyclass -> list pyclass)
             (PublicKeyParams_class : pyclass)
             (conversion_functions :
                pyclass ->
                result (list (pyclass * common.ConversionFunctions key_object)))
             (self : common.PublicKeyParams pyclass),
        common.convert_to issubclass mro PublicKeyParams_class
                          conversion_functions self NotAClass
        = Raise (ValueError "destination_class must be a class")).
Proof.
  split; [|done].
  intros nacl [cls d]. by destruct cls, nacl.
Qed.

(** ** [convert_from]: the recursion, and the fields it keeps *)

Lemma try_subclasses_ext
    (r r' : ParamsClass -> W key_params.PublicKeyParams)
    (subs : list ParamsClass) :
  Forall (fun c => r c = r' c) subs ->
  conversions.try_subclasses r subs = conversions.try_subclasses r' subs.
Proof.
  induction 1 as [|c subs Hc _ IH]; simpl; [done|].
  rewrite Hc. destruct (r' c) as [ws [p|e]]; [done|].
  destruct e; try done. by rewrite IH.
Qed.

Lemma select_lookup
    (fmt : FormatInstructionsDict) (d selected : ValuesDict) (name : string) :
  conversions.select fmt d = Ok selected ->
  selected !! name
  = if decide (name ∈ field_names fmt) then d !! name else None.
Proof.
  unfold field_names. revert selected.
  induction fmt as [|[k i] fmt IH]; intros selected H; simpl in H.
  - injection H as <-. by rewrite lookup_empty.
  - apply bind_Ok in H as (v & Hv & H).
    apply bind_Ok in H as (d' & Hd' & H). injection H as <-.
    unfold getitem in Hv. destruct (d !! k) as [v'|] eqn:E; [|done].
    injection Hv as ->. specialize (IH d' Hd').
    assert (Hiff : name ∈ (k :: fmt.*1) <-> name = k \/ name ∈ fmt.*1)
      by apply elem_of_cons.
    simpl. destruct (decide (name = k)) as [->|Hne].
    + rewrite lookup_insert_eq, decide_True by apply list_elem_of_here. done.
    + rewrite lookup_insert_ne, IH by done.
      repeat case_decide; first [done | exfalso; tauto].
Qed.

Lemma select_present
    (fmt : FormatInstructionsDict) (d selected : ValuesDict) (name : string) :
  conversions.select fmt d = Ok selected ->
  name ∈ field_names fmt -> is_Some (d !! name).
Proof.
  unfold field_names. revert selected.
  induction fmt as [|[k i] fmt IH]; intros selected H Hin; simpl in *.
  - by apply elem_of_nil in Hin.
  - apply bind_Ok in H as (v & Hv & H).
    apply bind_Ok in H as (d' & Hd' & H).
    unfold getitem in Hv. destruct (d !! k) as [v'|] eqn:E; [|done].
    apply elem_of_cons in Hin as [->|Hin]; [by rewrite E|by eapply IH].
Qed.


Section convert_from.
Variable nacl : bool.
Variable ed25519_public_bytes : pyval -> result pyval.
Variable nacl_public_bytes : pyval -> result pyval.

(** A class without subclasses makes no nested call. *)
Lemma convert_from_body_leaf
    (r r' : ParamsClass -> key_object -> W key_params.PublicKeyParams)
    (cls : ParamsClass) (key : key_object) :
  conversions.subclasses cls = [] ->
  conversions.convert_from_body nacl ed25519_public_bytes nacl_public_bytes
                                r cls key
  = conversions.convert_from_body nacl ed25519_public_bytes nacl_public_bytes
                                  r' cls key.
Proof. intros H. unfold conversions.convert_from_body. by rewrite H. Qed.

(** Two levels of nested calls are all that run: a larger bound gives the
    same result. *)
Lemma convert_from_at_enough (n : nat) (cls : ParamsClass) (key : key_object) :
  conversions.convert_from_at nacl ed25519_public_bytes nacl_public_bytes
                              (2 + n) cls key
  = conversions.convert_from nacl ed25519_public_bytes nacl_public_bytes
                             cls key.
Proof.
  unfold conversions.convert_from. simpl conversions.convert_from_at.
  unfold conversions.convert_from_body at 1 3.
  destruct (conversions.first_match _ key); [done|].
  rewrite (try_subclasses_ext _
             (fun subcls =>
                conversions.convert_from_body
                  nacl ed25519_public_bytes nacl_public_bytes
                  (fun _ _ => lift (Raise NotImplementedError)) subcls key));
    [done|].
  destruct cls; simpl; repeat constructor;
    by apply convert_from_body_leaf.
Qed.

(** Whatever [convert_from] returns is built from a mapping selected by
    the schema of the class. *)
Lemma convert_from_Ok
    (cls : ParamsClass) (key : key_object)
    (ws : list warning) (p : key_params.PublicKeyParams) :
  conversions.convert_from nacl ed25519_public_bytes nacl_public_bytes cls key
  = (ws, Ok p) ->
  exists fmt d selected ws0,
    conversions.conversion_schema cls = Ok fmt
    /\ conversions.select fmt d = Ok selected
    /\ p = key_params.mkParams cls selected
    /\ key_params.__init__ cls selected = (ws0, Ok p).
Proof.
  unfold conversions.convert_from. simpl conversions.convert_from_at.
  unfold conversions.convert_from_body at 1. intros H.
  apply wbind_Ok in H as (ws1 & [d|] & ws2 & _ & H & _); [|done].
  apply wbind_Ok in H as (ws3 & fmt & ws4 & Hfmt & H & _).
  apply lift_Ok in Hfmt as [Hfmt _].
  apply wbind_Ok in H as (ws5 & selected & ws6 & Hsel & H & _).
  apply lift_Ok in Hsel as [Hsel _].
  pose proof (params_init_Ok _ _ _ _ H) as Hp. eauto 10.
Qed.

End convert_from.

(** The parameters [convert_from] returns are of the class it was called
    on and hold exactly the fields of the schema of that class (the
    private schema for a private class, the public one otherwise),
    whatever else the conversion function or a subclass supplied. *)
Theorem convert_from_keeps_schema_fields
    (nacl : bool) (ed25519_public_bytes nacl_public_bytes : pyval -> result pyval)
    (cls : ParamsClass) (key : key_object)
    (ws : list warning) (p : key_params.PublicKeyParams) :
  conversions.convert_from nacl ed25519_public_bytes nacl_public_bytes cls key
  = (ws, Ok p) ->
  class_of p = cls
  /\ exists fmt,
       conversions.conversion_schema cls = Ok fmt
       /\ forall name, is_Some (data p !! name) <-> name ∈ field_names fmt.
Proof.
  intros H.
  apply convert_from_Ok in H as (fmt & d & selected & ws0 & Hfmt & Hsel & -> & _).
  split; [done|]. exists fmt. split; [done|]. intros name. simpl.
  rewrite (select_lookup fmt d selected name Hsel). case_decide as Hin.
  - split; [done|]. intros _. by eapply select_present.
  - split; [by intros [? ?]|done].
Qed.

Lemma convert_from_keeps_schema_fields_witness :
  class_of (mkParams RSAPublicKeyParams {[ "e" := PyInt 17; "n" := PyInt 3233 ]})
  = RSAPublicKeyParams
  /\ exists fmt,
       conversions.conversion_schema RSAPublicKeyParams = Ok fmt
       /\ forall name,
            is_Some (data (mkParams RSAPublicKeyParams
                                    {[ "e" := PyInt 17; "n" := PyInt 3233 ]})
                     !! name)
            <-> name ∈ field_names fmt.
Proof.
  apply (convert_from_keeps_schema_fields
           false (fun _ => Raise TypeError) (fun _ => Raise TypeError)
           RSAPublicKeyParams
           (RSAPrivateKey_object (PyInt 61) (PyInt 53) (PyInt 413)
                                 (PyInt 38) (PyInt 17) (PyInt 3233))
           []).
  vm_compute. reflexivity.
Defined.

(** A key object that is an instance of no class in the conversion
    functions of the class, nor in those of its subclasses, is refused
    with [NotImplementedError], without a warning. *)
Theorem convert_from_unsupported
    (nacl : bool) (ed25519_public_bytes nacl_public_bytes : pyval -> result pyval)
    (cls : ParamsClass) (key : key_object) :
  conversions.supported nacl ed25519_public_bytes nacl_public_bytes cls key
  = false ->
  conversions.convert_from nacl ed25519_public_bytes nacl_public_bytes cls key
  = ([], Raise NotImplementedError).
Proof.
  intros H.
  destruct cls, nacl, key as [| | | | | |[]]; try discriminate H; reflexivity.
Qed.

Lemma convert_from_unsupported_witness :
  conversions.convert_from true (fun _ => Raise TypeError) (fun _ => Raise TypeError)
                           RSAPrivateKeyParams
                           (RSAPublicKey_object (PyInt 17) (PyInt 3233))
  = ([], Raise NotImplementedError).
Proof.
  apply convert_from_unsupported. vm_compute. reflexivity.
Defined.

(** ** Sequenced computations that return *)

Lemma wbind_returns {A B}
    (c : W A) (k : A -> W B) (ws : list warning) (a : A) :
  c = (ws, Ok a) -> wbind c k = (ws ++ (k a).1, (k a).2).
Proof. intros ->. simpl. by destruct (k a). Qed.

(** ** The schema check warns and returns *)

Lemma check_dict_returns (d : ValuesDict) (fmt : FormatInstructionsDict) :
  check_dict_matches_format_instructions_dict d fmt
  = ((check_dict_matches_format_instructions_dict d fmt).1, Ok tt).
Proof.
  induction fmt as [|[k i] fmt IH]; simpl; [done|].
  rewrite IH.
  destruct (d !! k) as [v|]; [destruct (matches_instruction i v)|]; done.
Qed.

Lemma check_dict_agree (d d' : ValuesDict) (fmt : FormatInstructionsDict) :
  (forall name, name ∈ field_names fmt -> d !! name = d' !! name) ->
  check_dict_matches_format_instructions_dict d fmt
  = check_dict_matches_format_instructions_dict d' fmt.
Proof.
  unfold field_names. induction fmt as [|[k i] fmt IH]; intros H; simpl; [done|].
  rewrite (H k) by apply list_elem_of_here.
  rewrite IH; [done|]. intros name Hin. apply H. by apply list_elem_of_further.
Qed.

(** ** Construction of RSA parameter objects *)

(** The RSA classes have no check of their own: construction only runs
    the schema check, and returns. *)
Lemma rsa_init (cls : ParamsClass) (m : ValuesDict) (fmt : FormatInstructionsDict) :
  cls = RSAPublicKeyParams \/ cls = RSAPrivateKeyParams ->
  conversions.conversion_schema cls = Ok fmt ->
  key_params.__init__ cls m
  = ((check_dict_matches_format_instructions_dict m fmt).1, Ok (mkParams cls m)).
Proof.
  intros [-> | ->] [= <-];
    unfold key_params.__init__, check_params_are_valid; cbn [class_of];
    unfold PublicKeyParams_check_params_are_valid,
      PrivateKeyParams_check_params_are_valid; cbn [class_of data].
  - rewrite (wbind_returns _ _ _ tt (check_dict_returns _ _)). simpl.
    by rewrite app_nil_r.
  - cbn [private_format_instructions_dict].
    rewrite (wbind_lift _ _ _ eq_refl).
    rewrite (wbind_returns _ _ _ tt (check_dict_returns _ _)). simpl.
    by rewrite app_nil_r.
Qed.

(** ** Construction of Ed25519 parameter objects *)

Lemma length_eqb_KEY_SIZE (b : list byte) :
  (Z.of_nat (length b) =? KEY_SIZE) = bool_decide (length b = 32%nat).
Proof.
  unfold KEY_SIZE. case_bool_decide as H.
  - apply Z.eqb_eq. lia.
  - apply Z.eqb_neq. lia.
Qed.

(** The check of the public class on a mapping whose ['public'] is a
    [bytes]: the schema is satisfied, and the length is compared with
    [KEY_SIZE]. *)
Lemma ed25519_public_check
    (cls : ParamsClass) (m : ValuesDict) (b : list byte) :
  public_format_instructions_dict cls = [("public", BYTES)] ->
  m !! "public" = Some (PyBytes b) ->
  Ed25519PublicKeyParams_check_params_are_valid (mkParams cls m)
  = (if bool_decide (length b = 32%nat) then []
     else [UserWarning "Public key not of length 32"], Ok tt).
Proof.
  intros Hfmt Hpub.
  unfold Ed25519PublicKeyParams_check_params_are_valid,
    PublicKeyParams_check_params_are_valid, contains, getitem.
  cbn [data class_of]. rewrite Hfmt.
  cbn [check_dict_matches_format_instructions_dict]. rewrite Hpub.
  rewrite bool_decide_eq_true_2 by eauto.
  cbn. rewrite length_eqb_KEY_SIZE. by case_bool_decide.
Qed.

Lemma ed25519_public_init (m : ValuesDict) (b : list byte) :
  m !! "public" = Some (PyBytes b) ->
  key_params.__init__ Ed25519PublicKeyParams m
  = (if bool_decide (length b = 32%nat) then []
     else [UserWarning "Public key not of length 32"],
     Ok (mkParams Ed25519PublicKeyParams m)).
Proof.
  intros Hpub. unfold key_params.__init__, check_params_are_valid.
  cbn [class_of].
  rewrite (wbind_returns _ _ _ tt
             (ed25519_public_check Ed25519PublicKeyParams m b eq_refl Hpub)).
  simpl. by rewrite app_nil_r.
Qed.

(** The check of the private class on a mapping whose ['public'] and
    ['private_public'] are [bytes]. *)
Lemma ed25519_private_init (m : ValuesDict) (pub pp : list byte) :
  m !! "public" = Some (PyBytes pub) ->
  m !! "private_public" = Some (PyBytes pp) ->
  key_params.__init__ Ed25519PrivateKeyParams m
  = ((if bool_decide (length pub = 32%nat) then []
      else [UserWarning "Public key not of length 32"])
     ++ (if bool_decide (drop 32 pp = pub) then []
         else [UserWarning "Public key does not match"])
     ++ (if bool_decide (length (drop 32 pp) = 32%nat) then []
         else [UserWarning "Private key not of length 32"]),
     Ok (mkParams Ed25519PrivateKeyParams m)).
Proof.
  intros Hpub Hpp. unfold key_params.__init__, check_params_are_valid.
  cbn [class_of]. unfold Ed25519PrivateKeyParams_check_params_are_valid.
  rewrite (wbind_returns _ _ _ tt
             (ed25519_public_check Ed25519PrivateKeyParams m pub eq_refl Hpub)).
  unfold PrivateKeyParams_check_params_are_valid, contains, getitem.
  cbn [data class_of private_format_instructions_dict].
  rewrite (wbind_lift _ _ _ eq_refl).
  cbn [check_dict_matches_format_instructions_dict]. rewrite Hpub, Hpp.
  rewrite (bool_decide_eq_true_2 (is_Some (Some (PyBytes pp)))) by eauto.
  cbn. change (Z.to_nat KEY_SIZE) with 32%nat.
  rewrite length_eqb_KEY_SIZE.
  assert (Heq : bool_decide (PyBytes (drop 32 pp) = PyBytes pub)
                = bool_decide (drop 32 pp = pub)).
  { apply bool_decide_ext. split; congruence. }
  rewrite Heq.
  by destruct (bool_decide (length pub = 32%nat)),
       (bool_decide (drop 32 pp = pub)),
       (bool_decide (length (drop 32 pp) = 32%nat)).
Qed.

Lemma wbind_wret {A B} (a : A) (k : A -> W B) : wbind (wret a) k = k a.
Proof. unfold wbind, wret. by destruct (k a). Qed.

Lemma check_dict_project (m : ValuesDict) (fmt : FormatInstructionsDict) :
  check_dict_matches_format_instructions_dict (project fmt m) fmt
  = check_dict_matches_format_instructions_dict m fmt.
Proof.
  apply check_dict_agree. intros name Hin.
  by rewrite project_lookup, decide_True.
Qed.

(** ** [convert_from], step by step *)

Section convert_from_steps.
Variable nacl : bool.
Variable ed25519_public_bytes : pyval -> result pyval.
Variable nacl_public_bytes : pyval -> result pyval.

(** A class of the conversion functions has the key object as an
    instance, and its function returns a mapping. *)
Lemma convert_from_direct
    (cls : ParamsClass) (key : key_object)
    (d : ValuesDict) (fmt : FormatInstructionsDict) (selected : ValuesDict) :
  conversions.first_match
    (conversions.conversion_functions nacl ed25519_public_bytes
                                      nacl_public_bytes cls) key
  = Some (Ok d) ->
  conversions.conversion_schema cls = Ok fmt ->
  conversions.select fmt d = Ok selected ->
  conversions.convert_from nacl ed25519_public_bytes nacl_public_bytes cls key
  = key_params.__init__ cls selected.
Proof.
  intros H1 H2 H3. unfold conversions.convert_from.
  cbn [conversions.convert_from_at]. unfold conversions.convert_from_body at 1.
  rewrite H1, (wbind_lift _ _ _ eq_refl), wbind_wret.
  by rewrite (wbind_lift _ _ _ H2), (wbind_lift _ _ _ H3).
Qed.

(** Its function raises. *)
Lemma convert_from_direct_raises
    (cls : ParamsClass) (key : key_object) (e : exn) :
  conversions.first_match
    (conversions.conversion_functions nacl ed25519_public_bytes
                                      nacl_public_bytes cls) key
  = Some (Raise e) ->
  conversions.convert_from nacl ed25519_public_bytes nacl_public_bytes cls key
  = ([], Raise e).
Proof.
  intros H1. unfold conversions.convert_from.
  cbn [conversions.convert_from_at]. unfold conversions.convert_from_body at 1.
  by rewrite H1.
Qed.

(** No class of the conversion functions has the key object as an
    instance, and the class has one subclass, which has none: the
    subclass is asked. *)
Lemma convert_from_inherited
    (cls sub : ParamsClass) (key : key_object) :
  conversions.subclasses cls = [sub] ->
  conversions.subclasses sub = [] ->
  conversions.first_match
    (conversions.conversion_functions nacl ed25519_public_bytes
                                      nacl_public_bytes cls) key
  = None ->
  conversions.convert_from nacl ed25519_public_bytes nacl_public_bytes cls key
  = match conversions.convert_from nacl ed25519_public_bytes
                                   nacl_public_bytes sub key with
    | (ws, Ok p) =>
      (_ <- (ws, Ok tt) ;
       fmt <- lift (conversions.conversion_schema cls) ;
       selected <- lift (conversions.select fmt (data p)) ;
       key_params.__init__ cls selected)%warn
    | (ws, Raise e) => (ws, Raise e)
    end.
Proof.
  intros Hsubs Hleaf Hnone.
  assert (Hsub :
    conversions.convert_from nacl ed25519_public_bytes nacl_public_bytes sub key
    = conversions.convert_from_body
        nacl ed25519_public_bytes nacl_public_bytes
        (fun _ _ => lift (Raise NotImplementedError)) sub key).
  { unfold conversions.convert_from. cbn [conversions.convert_from_at].
    by apply convert_from_body_leaf. }
  rewrite Hsub. unfold conversions.convert_from.
  cbn [conversions.convert_from_at]. unfold conversions.convert_from_body at 1.
  rewrite Hnone, Hsubs. cbn [conversions.try_subclasses].
  destruct (conversions.convert_from_body _ _ _ _ sub key) as [ws [p|e]].
  - done.
  - destruct e; simpl; by rewrite ?app_nil_r.
Qed.

End convert_from_steps.

(** ** Conversions from key objects and back *)

(** Converting an RSA private key object with the public class gives the
    public parameters of that key: the private subclass reads the six
    numbers and the public class keeps [e] and [n]. The private class
    refuses a public key object. *)
Theorem convert_from_private_key_to_public_params
    (nacl : bool) (ed25519_public_bytes nacl_public_bytes : pyval -> result pyval)
    (p q d iqmp e n : Z) :
  conversions.convert_from nacl ed25519_public_bytes nacl_public_bytes
    RSAPublicKeyParams
    (RSAPrivateKey_object (PyInt p) (PyInt q) (PyInt d) (PyInt iqmp)
                          (PyInt e) (PyInt n))
  = ([], Ok (mkParams RSAPublicKeyParams {[ "e" := PyInt e; "n" := PyInt n ]}))
  /\ conversions.convert_from nacl ed25519_public_bytes nacl_public_bytes
       RSAPrivateKeyParams (RSAPublicKey_object (PyInt e) (PyInt n))
     = ([], Raise NotImplementedError).
Proof. split; reflexivity. Qed.

(** Any [bytes] converts to public Ed25519 parameters that hold it as
    ['public'], with the warning of the length exactly when it is not 32
    bytes long; these parameters convert back to the same [bytes]. *)
Theorem ed25519_public_bytes_round_trip
    (nacl : bool) (ed25519_public_bytes nacl_public_bytes : pyval -> result pyval)
    (b : list byte) :
  conversions.convert_from nacl ed25519_public_bytes nacl_public_bytes
    Ed25519PublicKeyParams (value_object (PyBytes b))
  = (if bool_decide (length b = 32%nat) then []
     else [UserWarning "Public key not of length 32"],
     Ok (mkParams Ed25519PublicKeyParams {[ "public" := PyBytes b ]}))
  /\ key_params.convert_to nacl
       (mkParams Ed25519PublicKeyParams {[ "public" := PyBytes b ]})
       (Class bytes_class)
     = Ok (value_object (PyBytes b)).
Proof.
  split; [|reflexivity].
  rewrite <- (ed25519_public_init {[ "public" := PyBytes b ]} b)
    by reflexivity.
  apply (convert_from_direct _ _ _ _ _ {[ "public" := PyBytes b ]}
                             [("public", BYTES)]);
    by destruct nacl.
Qed.

(** The private bytes of an Ed25519 key (32 bytes, for which the library
    gives a public key of 32 bytes) convert to private parameters without
    a warning, as [bytes] and as a key object alike; the parameters hold
    the public bytes and the private bytes followed by the public ones,
    and convert back to the private bytes and to the key object. The
    public class converts the key object to the public parameters of the
    key. *)
Theorem ed25519_private_bytes_round_trip
    (nacl : bool) (ed25519_public_bytes nacl_public_bytes : pyval -> result pyval)
    (private public : list byte) :
  length private = 32%nat ->
  length public = 32%nat ->
  ed25519_public_bytes (PyBytes private) = Ok (PyBytes public) ->
  let params :=
    mkParams Ed25519PrivateKeyParams
             {[ "public" := PyBytes public;
                "private_public" := PyBytes (private ++ public) ]} in
  conversions.convert_from nacl ed25519_public_bytes nacl_public_bytes
    Ed25519PrivateKeyParams (value_object (PyBytes private))
  = ([], Ok params)
  /\ conversions.convert_from nacl ed25519_public_bytes nacl_public_bytes
       Ed25519PrivateKeyParams (Ed25519PrivateKey_object (PyBytes private))
     = ([], Ok params)
  /\ key_params.convert_to nacl params (Class bytes_class)
     = Ok (value_object (PyBytes private))
  /\ key_params.convert_to nacl params (Class ed25519_Ed25519PrivateKey)
     = Ok (Ed25519PrivateKey_object (PyBytes private))
  /\ conversions.convert_from nacl ed25519_public_bytes nacl_public_bytes
       Ed25519PublicKeyParams (Ed25519PrivateKey_object (PyBytes private))
     = ([], Ok (mkParams Ed25519PublicKeyParams {[ "public" := PyBytes public ]})).
Proof.
  intros Hprivate Hpublic Hlib params.
  set (m := {[ "public" := PyBytes public;
               "private_public" := PyBytes (private ++ public) ]} : ValuesDict).
  assert (Hdrop : drop 32 (private ++ public) = public)
    by (rewrite <- Hprivate; apply drop_app_length).
  assert (Htake : take 32 (private ++ public) = private)
    by (rewrite <- Hprivate; apply take_app_length).
  assert (Hinit : key_params.__init__ Ed25519PrivateKeyParams m = ([], Ok params)).
  { rewrite (ed25519_private_init m public (private ++ public))
      by reflexivity.
    rewrite Hdrop. by rewrite !bool_decide_eq_true_2. }
  assert (Hdirect : forall key,
    conversions.first_match
      (conversions.conversion_functions nacl ed25519_public_bytes
                                        nacl_public_bytes Ed25519PrivateKeyParams)
      key
    = Some (Ok m) ->
    conversions.convert_from nacl ed25519_public_bytes nacl_public_bytes
                             Ed25519PrivateKeyParams key
    = ([], Ok params)).
  { intros key Hkey. rewrite <- Hinit.
    by apply (convert_from_direct _ _ _ _ _ m
                [("public", BYTES); ("private_public", BYTES)]). }
  assert (Hobject :
    conversions.convert_from nacl ed25519_public_bytes nacl_public_bytes
      Ed25519PrivateKeyParams (Ed25519PrivateKey_object (PyBytes private))
    = ([], Ok params)).
  { apply Hdirect. destruct nacl; simpl; by rewrite Hlib. }
  repeat split.
  - apply Hdirect. destruct nacl; simpl; by rewrite Hlib.
  - done.
  - rewrite <- Htake at 1. reflexivity.
  - rewrite <- Htake at 1. reflexivity.
  - rewrite (convert_from_inherited _ _ _ Ed25519PublicKeyParams
               Ed25519PrivateKeyParams) by (by destruct nacl).
    rewrite Hobject.
    rewrite (wbind_returns _ _ [] tt eq_refl).
    rewrite (wbind_lift (conversions.conversion_schema Ed25519PublicKeyParams)
                        _ _ eq_refl).
    assert (Hsel : conversions.select [("public", BYTES)] (data params)
                   = Ok {[ "public" := PyBytes public ]}) by reflexivity.
    cbn [public_format_instructions_dict].
    rewrite (wbind_lift _ _ _ Hsel).
    rewrite (ed25519_public_init {[ "public" := PyBytes public ]} public)
      by reflexivity.
    by rewrite bool_decide_eq_true_2.
Qed.

Lemma ed25519_private_bytes_round_trip_witness :
  let params := mkParams Ed25519PrivateKeyParams ed25519_private in
  conversions.convert_from false (fun _ => Ok (PyBytes public_bytes))
                           (fun _ => Raise TypeError)
                           Ed25519PrivateKeyParams
                           (value_object (PyBytes seed_bytes))
  = ([], Ok params)
  /\ conversions.convert_from false (fun _ => Ok (PyBytes public_bytes))
                              (fun _ => Raise TypeError)
                              Ed25519PrivateKeyParams
                              (Ed25519PrivateKey_object (PyBytes seed_bytes))
     = ([], Ok params)
  /\ key_params.convert_to false params (Class bytes_class)
     = Ok (value_object (PyBytes seed_bytes))
  /\ key_params.convert_to false params (Class ed25519_Ed25519PrivateKey)
     = Ok (Ed25519PrivateKey_object (PyBytes seed_bytes))
  /\ conversions.convert_from false (fun _ => Ok (PyBytes public_bytes))
                              (fun _ => Raise TypeError)
                              Ed25519PublicKeyParams
                              (Ed25519PrivateKey_object (PyBytes seed_bytes))
     = ([], Ok (mkParams Ed25519PublicKeyParams ed25519_public)).
Proof.
  apply (ed25519_private_bytes_round_trip
           false (fun _ => Ok (PyBytes public_bytes)) (fun _ => Raise TypeError)
           seed_bytes public_bytes); reflexivity.
Defined.

Lemma getitem_Ok (d : ValuesDict) (key : string) (v : pyval) :
  getitem d key = Ok v -> d !! key = Some v.
Proof. unfold getitem. destruct (d !! key); by intros [= ->]. Qed.

(** RSA parameters converted to a key object and back: the key object
    that [convert_to] returns for RSA parameters is converted by the
    class of the key type (the private class for a private key, the
    public class for a public key) to the part of the original mapping
    that the schema of that class names, with the warnings of the schema
    check of the original mapping. *)
Theorem rsa_convert_to_convert_from
    (nacl : bool) (ed25519_public_bytes nacl_public_bytes : pyval -> result pyval)
    (self : key_params.PublicKeyParams) (destination_class : pytype)
    (key : key_object) :
  class_of self = RSAPublicKeyParams \/ class_of self = RSAPrivateKeyParams ->
  key_params.convert_to nacl self (Class destination_class) = Ok key ->
  let cls := if bool_decide (destination_class = rsa_RSAPrivateKey)
             then RSAPrivateKeyParams else RSAPublicKeyParams in
  exists fmt,
    conversions.conversion_schema cls = Ok fmt
    /\ conversions.convert_from nacl ed25519_public_bytes nacl_public_bytes
                                cls key
       = ((check_dict_matches_format_instructions_dict (data self) fmt).1,
          Ok (mkParams cls (project fmt (data self)))).
Proof.
  destruct self as [c m]. intros Hc Hto cls. cbn [class_of data] in Hc, Hto |- *.
  assert (Hpublic : forall e n,
    getitem m "e" = Ok e -> getitem m "n" = Ok n ->
    conversions.convert_from nacl ed25519_public_bytes nacl_public_bytes
      RSAPublicKeyParams (RSAPublicKey_object e n)
    = ((check_dict_matches_format_instructions_dict
          m (public_format_instructions_dict RSAPublicKeyParams)).1,
       Ok (mkParams RSAPublicKeyParams
                    (project (public_format_instructions_dict RSAPublicKeyParams)
                             m)))).
  { intros e n Ee En. apply getitem_Ok in Ee, En.
    rewrite <- check_dict_project.
    rewrite <- (rsa_init RSAPublicKeyParams _ _ (or_introl eq_refl) eq_refl).
    cbn [project public_format_instructions_dict]. rewrite Ee, En.
    by apply (convert_from_direct _ _ _ _ _ {[ "e" := e; "n" := n ]}
                                  [("e", MPINT); ("n", MPINT)]). }
  destruct Hc as [-> | ->], destination_class; try discriminate Hto;
    subst cls; cbn [bool_decide decide_rel] in *.
  - exists (public_format_instructions_dict RSAPublicKeyParams).
    split; [done|].
    apply bind_Ok in Hto as (e & He & Hto).
    apply bind_Ok in Hto as (n & Hn & [= <-]). by apply Hpublic.
  - exists (public_format_instructions_dict RSAPublicKeyParams).
    split; [done|].
    apply bind_Ok in Hto as (e & He & Hto).
    apply bind_Ok in Hto as (n & Hn & [= <-]). by apply Hpublic.
  - eexists. split; [reflexivity|].
    apply bind_Ok in Hto as (p & Hp & Hto).
    apply bind_Ok in Hto as (q & Hq & Hto).
    apply bind_Ok in Hto as (d & Hd & Hto).
    apply bind_Ok in Hto as (iqmp & Hiqmp & Hto).
    apply bind_Ok in Hto as (e & He & Hto).
    apply bind_Ok in Hto as (n & Hn & [= <-]).
    cbn [data] in *. apply getitem_Ok in Hp, Hq, Hd, Hiqmp, He, Hn.
    rewrite <- check_dict_project.
    rewrite <- (rsa_init RSAPrivateKeyParams _ _ (or_intror eq_refl) eq_refl).
    cbn [project]. rewrite Hp, Hq, Hd, Hiqmp, He, Hn.
    by eapply (convert_from_direct _ _ _ _ _
                 {[ "n" := n; "e" := e; "d" := d;
                    "iqmp" := iqmp; "p" := p; "q" := q ]}).
Qed.

Lemma rsa_convert_to_convert_from_witness :
  exists fmt,
    conversions.conversion_schema RSAPrivateKeyParams = Ok fmt
    /\ conversions.convert_from false (fun _ => Raise TypeError)
                                (fun _ => Raise TypeError) RSAPrivateKeyParams
         (RSAPrivateKey_object (PyInt 61) (PyInt 53) (PyInt 413)
                               (PyInt 38) (PyInt 17) (PyInt 3233))
       = ((check_dict_matches_format_instructions_dict rsa_private fmt).1,
          Ok (mkParams RSAPrivateKeyParams (project fmt rsa_private))).
Proof.
  apply (rsa_convert_to_convert_from
           false (fun _ => Raise TypeError) (fun _ => Raise TypeError)
           (mkParams RSAPrivateKeyParams rsa_private) rsa_RSAPrivateKey).
  - right. reflexivity.
  - reflexivity.
Defined.

(** [generate_private_params] builds the parameters that [convert_from]
    builds from the generated key: for RSA, from the key that
    [rsa.generate_private_key] returns for the exponent and the size of
    the keyword arguments (65537 and 4096 when they are not given); for
    Ed25519, from the key that [Ed25519PrivateKey.generate] returns. *)
Theorem generate_private_params_converts_generated_key
    (nacl : bool) (ed25519_public_bytes nacl_public_bytes : pyval -> result pyval)
    (rsa_generate_private_key : pyval -> pyval -> result key_object)
    (kwargs : ValuesDict) (rsa_key ed25519_key : key_object) :
  rsa_generate_private_key
    (default (PyInt 65537) (kwargs !! "e"))
    (default (PyInt 4096) (kwargs !! "key_size"))
  = Ok rsa_key ->
  conversions.isinstance rsa_key conversions.RSAPrivateKeyWithSerialization_class
  = true ->
  conversions.isinstance ed25519_key conversions.Ed25519PrivateKey_class = true ->
  conversions.RSAPrivateKeyParams_generate_private_params
    rsa_generate_private_key kwargs
  = conversions.convert_from nacl ed25519_public_bytes nacl_public_bytes
                             RSAPrivateKeyParams rsa_key
  /\ conversions.Ed25519PrivateKeyParams_generate_private_params
       ed25519_public_bytes ed25519_key
     = conversions.convert_from nacl ed25519_public_bytes nacl_public_bytes
                                Ed25519PrivateKeyParams ed25519_key.
Proof.
  intros Hgen Hrsa Hed. split.
  - destruct rsa_key as [| p q d iqmp e n | | | | |[]]; try discriminate Hrsa.
    unfold conversions.RSAPrivateKeyParams_generate_private_params.
    assert (Hgen' :
      rsa_generate_private_key
        (conversions.kwargs_get kwargs "e" (PyInt conversions.PUBLIC_EXPONENT))
        (conversions.kwargs_get kwargs "key_size"
                                (PyInt conversions.RSA_KEY_SIZE))
      = Ok (RSAPrivateKey_object p q d iqmp e n)).
    { rewrite <- Hgen. unfold conversions.kwargs_get.
      by destruct (kwargs !! "e"), (kwargs !! "key_size"). }
    rewrite (wbind_lift _ _ _ Hgen').
    rewrite (wbind_lift (conversions.rsa_private_key
                           (RSAPrivateKey_object p q d iqmp e n)) _ _ eq_refl).
    symmetry.
    by eapply (convert_from_direct _ _ _ _ _
                 {[ "n" := n; "e" := e; "d" := d;
                    "iqmp" := iqmp; "p" := p; "q" := q ]}).
  - destruct ed25519_key as [| | | private | | |[]]; try discriminate Hed.
    unfold conversions.Ed25519PrivateKeyParams_generate_private_params.
    destruct (conversions.ed25519_private_key_cryptography
                ed25519_public_bytes (Ed25519PrivateKey_object private))
      as [m|e] eqn:E.
    + rewrite (wbind_lift _ _ _ eq_refl). symmetry.
      assert (Hsel : conversions.select
                       [("public", BYTES); ("private_public", BYTES)] m = Ok m).
      { simpl in E. apply bind_Ok in E as (public & _ & E).
        unfold conversions.private_mapping in E.
        apply bind_Ok in E as (private_public & _ & [= <-]). reflexivity. }
      apply (convert_from_direct _ _ _ _ _ m
               [("public", BYTES); ("private_public", BYTES)]);
        [|done|done].
      destruct nacl; simpl; simpl in E; by rewrite E.
    + symmetry. apply convert_from_direct_raises.
      destruct nacl; simpl; simpl in E; by rewrite E.
Qed.

Lemma generate_private_params_converts_generated_key_witness :
  conversions.RSAPrivateKeyParams_generate_private_params
    (fun _ _ =>
       Ok (RSAPrivateKey_object (PyInt 61) (PyInt 53) (PyInt 413)
                                (PyInt 38) (PyInt 17) (PyInt 3233)))
    ∅
  = conversions.convert_from false (fun _ => Ok (PyBytes public_bytes))
                             (fun _ => Raise TypeError)
                             RSAPrivateKeyParams
                             (RSAPrivateKey_object (PyInt 61) (PyInt 53)
                                (PyInt 413) (PyInt 38) (PyInt 17) (PyInt 3233))
  /\ conversions.Ed25519PrivateKeyParams_generate_private_params
       (fun _ => Ok (PyBytes public_bytes))
       (Ed25519PrivateKey_object (PyBytes seed_bytes))
     = conversions.convert_from false (fun _ => Ok (PyBytes public_bytes))
                                (fun _ => Raise TypeError)
                                Ed25519PrivateKeyParams
                                (Ed25519PrivateKey_object (PyBytes seed_bytes)).
Proof.
  apply (generate_private_params_converts_generated_key
           false (fun _ => Ok (PyBytes public_bytes)) (fun _ => Raise TypeError)
           (fun _ _ =>
              Ok (RSAPrivateKey_object (PyInt 61) (PyInt 53) (PyInt 413)
                                       (PyInt 38) (PyInt 17) (PyInt 3233)))
           ∅); reflexivity.
Defined.

(** ** A conversion that a subclass makes *)

Lemma select_total
    (fmt : FormatInstructionsDict) (d : ValuesDict) :
  (forall name, name ∈ field_names fmt -> is_Some (d !! name)) ->
  conversions.select fmt d = Ok (project fmt d).
Proof.
  unfold field_names. induction fmt as [|[k i] fmt IH]; intros H; [done|].
  simpl. destruct (H k) as [v Hv]; [apply list_elem_of_here|].
  unfold getitem. rewrite Hv. simpl. rewrite IH; [done|].
  intros name Hin. apply H. by apply list_elem_of_further.
Qed.

(** The check of the public Ed25519 class looks at ['public'] only. *)
Lemma ed25519_public_check_agree
    (cls cls' : ParamsClass) (m m' : ValuesDict) :
  public_format_instructions_dict cls = [("public", BYTES)] ->
  public_format_instructions_dict cls' = [("public", BYTES)] ->
  m !! "public" = m' !! "public" ->
  Ed25519PublicKeyParams_check_params_are_valid (mkParams cls m)
  = Ed25519PublicKeyParams_check_params_are_valid (mkParams cls' m').
Proof.
  intros Hcls Hcls' Hpublic.
  unfold Ed25519PublicKeyParams_check_params_are_valid,
    PublicKeyParams_check_params_are_valid, contains, getitem.
  cbn [data class_of]. rewrite Hcls, Hcls'.
  cbn [check_dict_matches_format_instructions_dict]. by rewrite Hpublic.
Qed.

(** When no conversion function of a class takes the key object, the
    class asks its subclass: what the subclass raises is raised (a
    [NotImplementedError] is passed over and raised at the end), and
    from the parameters the subclass returns the class builds its own,
    with the fields of its public schema, after the warnings of the
    subclass. *)
Theorem convert_from_through_subclass
    (nacl : bool) (ed25519_public_bytes nacl_public_bytes : pyval -> result pyval)
    (cls sub : ParamsClass) (key : key_object) :
  sub ∈ conversions.subclasses cls ->
  conversions.first_match
    (conversions.conversion_functions nacl ed25519_public_bytes
                                      nacl_public_bytes cls) key
  = None ->
  match conversions.convert_from nacl ed25519_public_bytes nacl_public_bytes
                                 sub key with
  | (ws, Ok p) =>
    exists ws',
      conversions.convert_from nacl ed25519_public_bytes nacl_public_bytes
                               cls key
      = (ws ++ ws',
         Ok (mkParams cls (project (public_format_instructions_dict cls)
                                   (data p))))
  | (ws, Raise e) =>
    conversions.convert_from nacl ed25519_public_bytes nacl_public_bytes
                             cls key
    = (ws, Raise e)
  end.
Proof.
  intros Hsub Hnone.
  assert (Hcases :
    cls = RSAPublicKeyParams /\ sub = RSAPrivateKeyParams
    \/ cls = Ed25519PublicKeyParams /\ sub = Ed25519PrivateKeyParams).
  { destruct cls; simpl in Hsub;
      first [ by apply elem_of_nil in Hsub
            | apply list_elem_of_singleton in Hsub; auto ]. }
  assert (Hinherited := convert_from_inherited
            nacl ed25519_public_bytes nacl_public_bytes cls sub key).
  destruct (conversions.convert_from nacl ed25519_public_bytes
              nacl_public_bytes sub key) as [ws [p|e]] eqn:Hconv.
  - apply convert_from_Ok in Hconv
      as (fmt & d & selected & ws0 & Hfmt & Hsel & -> & Hinit).
    cbn [data].
    assert (Hselect :
      conversions.select (public_format_instructions_dict cls) selected
      = Ok (project (public_format_instructions_dict cls) selected)).
    { apply select_total. intros name Hin.
      rewrite (select_lookup fmt d selected name Hsel).
      assert (Hfield : name ∈ field_names fmt).
      { destruct Hcases as [[-> ->] | [-> ->]]; injection Hfmt as <-;
          unfold field_names in *; simpl in *;
          repeat (apply elem_of_cons in Hin as [->|Hin]);
          first [by apply elem_of_nil in Hin | by repeat constructor]. }
      rewrite decide_True by done. by eapply select_present. }
    assert (Hschema :
      conversions.conversion_schema cls
      = Ok (public_format_instructions_dict cls))
      by (by destruct Hcases as [[-> _] | [-> _]]).
    rewrite Hinherited by (by destruct Hcases as [[-> ->] | [-> ->]]).
    rewrite (wbind_returns _ _ ws tt eq_refl).
    rewrite (wbind_lift _ _ _ Hschema), (wbind_lift _ _ _ Hselect).
    destruct Hcases as [[-> ->] | [-> ->]].
    + rewrite (rsa_init RSAPublicKeyParams _ _ (or_introl eq_refl) eq_refl).
      eauto.
    + unfold key_params.__init__, check_params_are_valid in Hinit |- *.
      cbn [class_of] in Hinit |- *.
      apply wbind_Ok in Hinit as (ws1 & [] & ws2 & Hcheck & _ & _).
      unfold Ed25519PrivateKeyParams_check_params_are_valid in Hcheck.
      apply wbind_Ok in Hcheck as (ws3 & [] & ws4 & Hpublic & _ & _).
      rewrite (ed25519_public_check_agree
                 Ed25519PublicKeyParams Ed25519PrivateKeyParams
                 _ selected eq_refl eq_refl).
      * rewrite (wbind_returns _ _ _ _ Hpublic). simpl. eauto.
      * by rewrite project_lookup, decide_True by (by constructor).
  - apply Hinherited; by destruct Hcases as [[-> ->] | [-> ->]].
Qed.

Lemma convert_from_through_subclass_witness :
  exists ws',
    conversions.convert_from true (fun _ => Raise TypeError)
                             (fun _ => Ok (PyBytes public_bytes))
                             Ed25519PublicKeyParams
                             (nacl_PrivateKey_object (PyBytes seed_bytes))
    = ([] ++ ws',
       Ok (mkParams Ed25519PublicKeyParams
             (project (public_format_instructions_dict Ed25519PublicKeyParams)
                      (data (mkParams Ed25519PrivateKeyParams ed25519_private))))).
Proof.
  apply (convert_from_through_subclass
           true (fun _ => Raise TypeError) (fun _ => Ok (PyBytes public_bytes))
           Ed25519PublicKeyParams Ed25519PrivateKeyParams
           (nacl_PrivateKey_object (PyBytes seed_bytes))).
  - apply list_elem_of_here.
  - reflexivity.
Defined.

(** ** What the construction of parameter objects warns of and raises *)

Lemma wbind_Raise {A B}
    (c : W A) (k : A -> W B) (ws : list warning) (e : exn) :
  wbind c k = (ws, Raise e) ->
  c = (ws, Raise e)
  \/ exists ws1 a ws2, c = (ws1, Ok a) /\ k a = (ws2, Raise e) /\ ws = ws1 ++ ws2.
Proof.
  destruct c as [ws1 [a|e']]; simpl.
  - destruct (k a) as [ws2 r] eqn:E. intros [= <- ->]. right. eauto 6.
  - intros [= <- <-]. by left.
Qed.

Lemma ed25519_public_check_raises
    (cls : ParamsClass) (m : ValuesDict) (ws : list warning) (e : exn) :
  Ed25519PublicKeyParams_check_params_are_valid (mkParams cls m)
  = (ws, Raise e) ->
  e = TypeError
  /\ exists v, m !! "public" = Some v /\ py_len v = Raise TypeError.
Proof.
  unfold Ed25519PublicKeyParams_check_params_are_valid,
    PublicKeyParams_check_params_are_valid. cbn [data class_of]. intros H.
  apply wbind_Raise in H as [H | (ws1 & [] & ws2 & _ & H & _)].
  - by rewrite check_dict_returns in H.
  - unfold contains, getitem in H.
    destruct (m !! "public") as [v|] eqn:E.
    + rewrite bool_decide_eq_true_2 in H by eauto.
      destruct v as [z|b|s|]; simpl in H;
        try (injection H as _ <-; eauto);
        by destruct (negb _) in H.
    + by rewrite bool_decide_eq_false_2 in H by (by intros [? ?]).
Qed.

(** Private Ed25519 parameters built from a mapping whose ['public'] and
    ['private_public'] are [bytes]: the construction returns the object
    with the mapping, and warns of the length of ['public'], of the bytes
    of ['private_public'] after the first 32 being different from
    ['public'], and of the length of these bytes, each when it is the
    case, in this order, and of nothing else. So it is silent exactly
    when ['public'] is 32 bytes long and ['private_public'] ends with it
    after 32 bytes. *)
Theorem ed25519_private_init_warnings
    (m : ValuesDict) (public private_public : list byte) :
  m !! "public" = Some (PyBytes public) ->
  m !! "private_public" = Some (PyBytes private_public) ->
  let ws :=
    (if bool_decide (length public = 32%nat) then []
     else [UserWarning "Public key not of length 32"])
    ++ (if bool_decide (drop 32 private_public = public) then []
        else [UserWarning "Public key does not match"])
    ++ (if bool_decide (length (drop 32 private_public) = 32%nat) then []
        else [UserWarning "Private key not of length 32"]) in
  key_params.__init__ Ed25519PrivateKeyParams m
  = (ws, Ok (mkParams Ed25519PrivateKeyParams m))
  /\ (ws = [] <-> length public = 32%nat /\ drop 32 private_public = public).
Proof.
  intros Hpublic Hprivate ws. split.
  { by apply ed25519_private_init. }
  subst ws. repeat case_bool_decide; simpl; split;
    first [done | intros [? ?]; congruence | by split].
Qed.

Lemma ed25519_private_init_warnings_witness :
  key_params.__init__ Ed25519PrivateKeyParams
    {[ "public" := PyBytes public_bytes;
       "private_public" := PyBytes (seed_bytes ++ seed_bytes) ]}
  = ([] ++ [UserWarning "Public key does not match"] ++ [],
     Ok (mkParams Ed25519PrivateKeyParams
           {[ "public" := PyBytes public_bytes;
              "private_public" := PyBytes (seed_bytes ++ seed_bytes) ]}))
  /\ ([] ++ [UserWarning "Public key does not match"] ++ [] = []
      <-> length public_bytes = 32%nat
          /\ drop 32 (seed_bytes ++ seed_bytes) = public_bytes).
Proof.
  apply (ed25519_private_init_warnings
           {[ "public" := PyBytes public_bytes;
              "private_public" := PyBytes (seed_bytes ++ seed_bytes) ]}
           public_bytes (seed_bytes ++ seed_bytes)); reflexivity.
Defined.

Lemma params_init_raises_cases
    (cls : ParamsClass) (m : ValuesDict) (ws : list warning) (e : exn) :
  key_params.__init__ cls m = (ws, Raise e) ->
  (cls = Ed25519PublicKeyParams \/ cls = Ed25519PrivateKeyParams)
  /\ (e = TypeError
      /\ (exists name v,
            (name = "public"
             \/ name = "private_public" /\ cls = Ed25519PrivateKeyParams)
            /\ m !! name = Some v /\ py_len v = Raise TypeError)
      \/ e = KeyError (PyStr "public")
         /\ cls = Ed25519PrivateKeyParams
         /\ m !! "public" = None /\ is_Some (m !! "private_public")).
Proof.
  intros H. destruct cls.
  - by rewrite (rsa_init RSAPublicKeyParams _ _ (or_introl eq_refl) eq_refl) in H.
  - by rewrite (rsa_init RSAPrivateKeyParams _ _ (or_intror eq_refl) eq_refl) in H.
  - split; [by left|]. left.
    unfold key_params.__init__, check_params_are_valid in H. cbn [class_of] in H.
    apply wbind_Raise in H as [H | (ws1 & [] & ws2 & _ & H & _)]; [|done].
    apply ed25519_public_check_raises in H as (-> & v & Hv & Hlen).
    split; [done|]. exists "public", v. auto.
  - split; [by right|].
    unfold key_params.__init__, check_params_are_valid in H. cbn [class_of] in H.
    apply wbind_Raise in H as [H | (ws1 & [] & ws2 & _ & H & _)]; [|done].
    unfold Ed25519PrivateKeyParams_check_params_are_valid in H.
    apply wbind_Raise in H as [H | (ws3 & [] & ws4 & _ & H & _)].
    { apply ed25519_public_check_raises in H as (-> & v & Hv & Hlen).
      left. split; [done|]. exists "public", v. auto. }
    apply wbind_Raise in H as [H | (ws5 & [] & ws6 & _ & H & _)].
    { unfold PrivateKeyParams_check_params_are_valid in H.
      cbn [class_of data private_format_instructions_dict] in H.
      rewrite (wbind_lift _ _ _ eq_refl) in H.
      by rewrite check_dict_returns in H. }
    unfold contains, getitem in H. cbn [data] in H.
    destruct (m !! "private_public") as [pp|] eqn:Epp.
    2: { by rewrite bool_decide_eq_false_2 in H by (by intros [? ?]). }
    rewrite bool_decide_eq_true_2 in H by eauto. cbn [negb] in H.
    rewrite (wbind_lift _ _ _ eq_refl) in H.
    destruct (slice_from pp (Z.to_nat KEY_SIZE)) as [tail|e'] eqn:Eslice.
    2: { left. destruct pp; try discriminate Eslice;
           injection Eslice as <-; injection H as _ <-;
           (split; [done|]); eexists "private_public", _; eauto. }
    rewrite (wbind_lift _ _ _ eq_refl) in H.
    destruct (m !! "public") as [public|] eqn:Epublic.
    2: { injection H as _ <-. right. eauto. }
    exfalso. rewrite (wbind_lift _ _ _ eq_refl) in H.
    apply wbind_Raise in H as [H | (ws7 & [] & ws8 & _ & H & _)].
    { by destruct (negb _) in H. }
    rewrite (wbind_lift _ _ _ eq_refl), (wbind_lift _ _ _ Eslice) in H.
    destruct pp; try discriminate Eslice; injection Eslice as <-;
      simpl in H; by destruct (negb _) in H.
Qed.

(** The construction of a parameter object raises for the Ed25519
    classes only, and in two ways: [TypeError], when ['public'] (or, for
    the private class, ['private_public']) holds a value that has no
    length; [KeyError('public')], when the mapping of a private object
    has ['private_public'] and lacks ['public']. The RSA classes never
    raise. *)
Theorem params_init_raises
    (cls : ParamsClass) (m : ValuesDict) (ws : list warning) (e : exn) :
  key_params.__init__ cls m = (ws, Raise e) ->
  (cls = Ed25519PublicKeyParams \/ cls = Ed25519PrivateKeyParams)
  /\ (e = TypeError
      /\ (exists name v,
            (name = "public"
             \/ name = "private_public" /\ cls = Ed25519PrivateKeyParams)
            /\ m !! name = Some v /\ py_len v = Raise TypeError)
      \/ e = KeyError (PyStr "public")
         /\ cls = Ed25519PrivateKeyParams
         /\ m !! "public" = None /\ is_Some (m !! "private_public")).
Proof. apply params_init_raises_cases. Qed.

Lemma params_init_raises_witness :
  (Ed25519PrivateKeyParams = Ed25519PublicKeyParams
   \/ Ed25519PrivateKeyParams = Ed25519PrivateKeyParams)
  /\ (KeyError (PyStr "public") = TypeError
      /\ (exists name v,
            (name = "public"
             \/ name = "private_public"
                /\ Ed25519PrivateKeyParams = Ed25519PrivateKeyParams)
            /\ ed25519_private_only !! name = Some v
            /\ py_len v = Raise TypeError)
      \/ KeyError (PyStr "public") = KeyError (PyStr "public")
         /\ Ed25519PrivateKeyParams = Ed25519PrivateKeyParams
         /\ ed25519_private_only !! "public" = None
         /\ is_Some (ed25519_private_only !! "private_public")).
Proof.
  apply (params_init_raises
           Ed25519PrivateKeyParams ed25519_private_only
           [SchemaWarning "public" BYTES; SchemaWarning "public" BYTES]).
  vm_compute. reflexivity.
Defined.

(** ** What the construction of an envelope raises *)

Lemma factory_raises
    (typ : KeyClass) (key_type : pyval) (e : exn) :
  match typ with
  | PublicKey => create_public_key_params key_type
  | PrivateKey => create_private_key_params key_type
  end = Raise e ->
  e = KeyError key_type.
Proof.
  unfold create_public_key_params, create_private_key_params, mapping_getitem.
  destruct typ, key_type as [z|b|s|]; try destruct (_KEY_TYPE_MAPPING !! s);
    simpl; congruence.
Qed.

(** The constructor of an envelope raises in three ways, and in no
    other: [KeyError('key_type')] when the header has no ['key_type'];
    [KeyError] of the key type when the factory has no entry for it;
    what the construction of the parameters raises, a [TypeError] or
    [KeyError('public')]. The footer never makes it raise. *)
Theorem key_init_raises
    (typ : KeyClass) (h p f : ValuesDict) (ws : list warning) (e : exn) :
  key.__init__ typ h p f = (ws, Raise e) ->
  h !! "key_type" = None /\ e = KeyError (PyStr "key_type")
  \/ (exists key_type,
        h !! "key_type" = Some key_type
        /\ match typ with
           | PublicKey => create_public_key_params key_type
           | PrivateKey => create_private_key_params key_type
           end = Raise (KeyError key_type)
        /\ e = KeyError key_type)
  \/ (exists key_type cls ws',
        h !! "key_type" = Some key_type
        /\ match typ with
           | PublicKey => create_public_key_params key_type
           | PrivateKey => create_private_key_params key_type
           end = Ok cls
        /\ key_params.__init__ cls p = (ws', Raise e)
        /\ (e = TypeError \/ e = KeyError (PyStr "public"))).
Proof.
  unfold key.__init__. intros H.
  apply wbind_Raise in H as [H | (ws1 & [] & ws2 & _ & H & _)].
  { by rewrite check_dict_returns in H. }
  unfold getitem in H. destruct (h !! "key_type") as [key_type|] eqn:Ekt.
  2: { left. by injection H as _ <-. }
  right. rewrite (wbind_lift _ _ _ eq_refl) in H.
  apply wbind_Raise in H as [H | (ws3 & params & ws4 & _ & H & _)].
  - unfold create_key_params in H.
    destruct (match typ with
              | PublicKey => create_public_key_params key_type
              | PrivateKey => create_private_key_params key_type
              end) as [cls|e'] eqn:Efactory.
    + assert (Hinit : key_params.__init__ cls p = (ws2, Raise e))
        by (destruct typ; by rewrite (wbind_lift _ _ _ Efactory) in H).
      right. exists key_type, cls, ws2. repeat split; try done.
      apply params_init_raises_cases in Hinit as [_ [[-> _] | [-> _]]]; auto.
    + left. exists key_type.
      pose proof (factory_raises _ _ _ Efactory) as ->.
      repeat split; [done|].
      destruct typ; rewrite Efactory in H; by injection H as _ <-.
  - apply wbind_Raise in H as [H | (ws5 & [] & ws6 & _ & H & _)]; [|done].
    by rewrite check_dict_returns in H.
Qed.

Lemma key_init_raises_witness :
  (∅ : ValuesDict) !! "key_type" = None
  /\ KeyError (PyStr "key_type") = KeyError (PyStr "key_type")
  \/ (exists key_type,
        (∅ : ValuesDict) !! "key_type" = Some key_type
        /\ create_public_key_params key_type = Raise (KeyError key_type)
        /\ KeyError (PyStr "key_type") = KeyError key_type)
  \/ (exists key_type cls ws',
        (∅ : ValuesDict) !! "key_type" = Some key_type
        /\ create_public_key_params key_type = Ok cls
        /\ key_params.__init__ cls ed25519_public
           = (ws', Raise (KeyError (PyStr "key_type")))
        /\ (KeyError (PyStr "key_type") = TypeError
            \/ KeyError (PyStr "key_type") = KeyError (PyStr "public"))).
Proof.
  apply (key_init_raises PublicKey ∅ ed25519_public ∅
                         [SchemaWarning "key_type" STRING]).
  vm_compute. reflexivity.
Defined.

(** ** The conversions of [key_params/dss.py] *)

(** The two functions of each [ConversionFunctions] of the module are
    inverse to each other: the mapping read from a DSA key object
    rebuilds that key object, and the key object built from a mapping
    gives back the part of the mapping that the
    [FORMAT_INSTRUCTIONS_DICT] of the class names. *)
Theorem dss_conversion_functions_inverse :
  (forall key m,
     dss.dsa_public_key_convert_from_cryptography key = Some m ->
     dss.dsa_public_key_convert_to_cryptography m = Ok key)
  /\ (forall m key,
        dss.dsa_public_key_convert_to_cryptography m = Ok key ->
        dss.dsa_public_key_convert_from_cryptography key
        = Some (project dss.DSSPublicKeyParams_FORMAT_INSTRUCTIONS_DICT m))
  /\ (forall key m,
        dss.dsa_private_key_convert_from_cryptography key = Some m ->
        dss.dsa_private_key_convert_to_cryptography m = Ok key)
  /\ (forall m key,
        dss.dsa_private_key_convert_to_cryptography m = Ok key ->
        dss.dsa_private_key_convert_from_cryptography key
        = Some (project dss.DSSPrivateKeyParams_FORMAT_INSTRUCTIONS_DICT m)).
Proof.
  repeat split.
  - intros [y p q g|] m [= <-]. reflexivity.
  - intros m key H.
    apply bind_Ok in H as (y & Hy & H). apply bind_Ok in H as (p & Hp & H).
    apply bind_Ok in H as (q & Hq & H). apply bind_Ok in H as (g & Hg & [= <-]).
    apply getitem_Ok in Hy, Hp, Hq, Hg.
    simpl. by rewrite Hy, Hp, Hq, Hg.
  - intros [|x y p q g] m [= <-]. reflexivity.
  - intros m key H.
    apply bind_Ok in H as (x & Hx & H). apply bind_Ok in H as (y & Hy & H).
    apply bind_Ok in H as (p & Hp & H). apply bind_Ok in H as (q & Hq & H).
    apply bind_Ok in H as (g & Hg & [= <-]).
    apply getitem_Ok in Hx, Hy, Hp, Hq, Hg.
    simpl. by rewrite Hx, Hy, Hp, Hq, Hg.
Qed.


(** ** The public part of a private envelope *)

(** A key type with a private class has a public class, the base of the
    private one. *)
Lemma registry_private_public (key_type : pyval) (cls : ParamsClass) :
  create_private_key_params key_type = Ok cls ->
  exists public_cls,
    create_public_key_params key_type = Ok public_cls
    /\ (public_cls = RSAPublicKeyParams /\ cls = RSAPrivateKeyParams
        \/ public_cls = Ed25519PublicKeyParams /\ cls = Ed25519PrivateKeyParams).
Proof.
  unfold create_private_key_params, create_public_key_params, mapping_getitem.
  destruct key_type as [z|b|s|]; try done.
  destruct (_KEY_TYPE_MAPPING !! s) as [classes|] eqn:E; [|done].
  assert (Hs : s = "ssh-rsa" \/ s = "ssh-ed25519")
    by (apply registry_entries; by rewrite E).
  destruct Hs as [-> | ->]; vm_compute in E; injection E as <-; simpl;
    intros [= <-]; eauto.
Qed.

Lemma only_fields_of_project (fmt : FormatInstructionsDict) (m : ValuesDict) :
  only_fields fmt (project fmt m).
Proof. intros name [v Hv]. rewrite project_lookup in Hv. by case_decide. Qed.

(** When the private class constructs an object from a mapping, the
    public class constructs one from the public part of the mapping. *)
Lemma public_init_of_private
    (cls public_cls : ParamsClass) (m : ValuesDict)
    (ws : list warning) (params : key_params.PublicKeyParams) :
  public_cls = RSAPublicKeyParams /\ cls = RSAPrivateKeyParams
  \/ public_cls = Ed25519PublicKeyParams /\ cls = Ed25519PrivateKeyParams ->
  key_params.__init__ cls m = (ws, Ok params) ->
  exists ws',
    key_params.__init__
      public_cls (project (public_format_instructions_dict public_cls) m)
    = (ws',
       Ok (mkParams public_cls
                    (project (public_format_instructions_dict public_cls) m))).
Proof.
  intros [[-> ->] | [-> ->]] Hinit.
  - rewrite (rsa_init RSAPublicKeyParams _ _ (or_introl eq_refl) eq_refl). eauto.
  - unfold key_params.__init__, check_params_are_valid in Hinit |- *.
    cbn [class_of] in Hinit |- *.
    apply wbind_Ok in Hinit as (ws1 & [] & ws2 & Hcheck & _ & _).
    unfold Ed25519PrivateKeyParams_check_params_are_valid in Hcheck.
    apply wbind_Ok in Hcheck as (ws3 & [] & ws4 & Hpublic & _ & _).
    rewrite (ed25519_public_check_agree
               Ed25519PublicKeyParams Ed25519PrivateKeyParams
               _ m eq_refl eq_refl).
    + rewrite (wbind_returns _ _ _ _ Hpublic). simpl. eauto.
    + by rewrite project_lookup, decide_True by (by constructor).
Qed.

(** The public encoding of a private envelope is the encoding of a
    public envelope: [PublicKey.from_bytes] decodes what [pack_public]
    returns for a [PrivateKey] built by the constructor, into a
    [PublicKey] whose header holds the key type, whose parameters are of
    the public class of the key type and hold the public part of the
    private parameters, and whose footer is empty; nothing is left
    over. *)
Theorem private_envelope_public_part
    (h p f : ValuesDict) (ws : list warning) (k : Key) (bs : list byte) :
  key.__init__ PrivateKey h p f = (ws, Ok k) ->
  pack_public k = Ok bs ->
  exists ws' key_type public_cls,
    h !! "key_type" = Some key_type
    /\ create_public_key_params key_type = Ok public_cls
    /\ from_bytes PublicKey bs
       = (ws',
          Ok (mkKey PublicKey {[ "key_type" := key_type ]}
                (mkParams public_cls
                   (project (public_format_instructions_dict public_cls) p))
                ∅ (Some bs) None)).
Proof.
  intros Hinit Hpack.
  pose proof (key_init_Ok _ _ _ _ _ _ Hinit)
    as (Htyp & Hhd & Hft & Hdata & _ & _ & _).
  unfold key.__init__ in Hinit.
  apply wbind_Ok in Hinit as (ws1 & [] & ws2 & _ & Hinit & _).
  apply wbind_Ok in Hinit as (ws3 & key_type & ws4 & Hkt & Hinit & _).
  apply lift_Ok in Hkt as [Hkt _]. apply getitem_Ok in Hkt.
  apply wbind_Ok in Hinit as (ws5 & kparams & ws6 & Hparams & Hinit & _).
  apply wbind_Ok in Hinit as (ws7 & [] & ws8 & _ & Hret & _).
  unfold wret in Hret. injection Hret as _ <-.
  apply create_key_params_Ok in Hparams as (Hcls & Hkdata & Hparams).
  destruct (registry_private_public _ _ Hcls) as (public_cls & Hpublic & Hpair).
  destruct (public_init_of_private _ _ _ _ _ Hpair Hparams) as (ws' & Hpublic_init).
  assert (Hfmt : public_format_instructions_dict public_cls
                 = public_format_instructions_dict (class_of kparams))
    by (by destruct Hpair as [[-> ->] | [-> ->]]).
  set (p' := project (public_format_instructions_dict public_cls) p) in *.
  set (h' := {[ "key_type" := key_type ]} : ValuesDict).
  set (kpub := mkKey PublicKey h' (mkParams public_cls p') ∅ None None).
  assert (Hh' : h' = project (header_format_instructions_dict PublicKey) h)
    by (simpl; by rewrite Hkt).
  assert (Hkpub :
    key.__init__ PublicKey h' p' ∅
    = ((check_dict_matches_format_instructions_dict
          h' (header_format_instructions_dict PublicKey)).1 ++ ws' ++ [],
       Ok kpub)).
  { unfold key.__init__.
    rewrite (wbind_returns _ _ _ tt (check_dict_returns _ _)).
    rewrite (wbind_lift (getitem h' "key_type") _ _ eq_refl).
    unfold create_key_params.
    rewrite (wbind_lift _ _ _ Hpublic).
    by rewrite (wbind_returns _ _ _ _ Hpublic_init). }
  exists ((check_dict_matches_format_instructions_dict
             h' (header_format_instructions_dict PublicKey)).1 ++ ws' ++ []),
         key_type, public_cls.
  repeat split; [done..|].
  apply (from_bytes_pack_exact _ _ _ _ _ kpub bs Hkpub).
  - repeat split.
    + simpl. rewrite Hh'. apply only_fields_of_project.
    + intros fmt [= <-]. apply only_fields_of_project.
    + intros name [v Hv]. unfold kpub in Hv. cbn [footer] in Hv.
      by rewrite lookup_empty in Hv.
  - unfold envelope.pack, pack_public in Hpack |- *. unfold kpub.
    cbn [type_of header params footer data class_of] in Hpack |- *.
    rewrite Hfmt. rewrite <- Hpack.
    rewrite (write_from_format_instructions_dict_agree
               (header_format_instructions_dict PublicKey) h' h).
    2: { intros name Hin. by rewrite Hh', project_lookup, decide_True. }
    destruct (write_from_format_instructions_dict
                (header_format_instructions_dict PublicKey) h [])
      as [s1|e1]; [|done].
    simpl.
    rewrite (write_from_format_instructions_dict_agree
               (public_format_instructions_dict (class_of kparams)) p' p).
    2: { intros name Hin. subst p'.
         by rewrite Hfmt, project_lookup, decide_True. }
    by rewrite Hkdata.
Qed.

Lemma private_envelope_public_part_witness :
  exists ws' key_type public_cls,
    ed25519_header !! "key_type" = Some key_type
    /\ create_public_key_params key_type = Ok public_cls
    /\ from_bytes PublicKey ed25519_blob
       = (ws',
          Ok (mkKey PublicKey {[ "key_type" := key_type ]}
                (mkParams public_cls
                   (project (public_format_instructions_dict public_cls)
                            ed25519_private))
                ∅ (Some ed25519_blob) None)).
Proof.
  apply (private_envelope_public_part
           ed25519_header ed25519_private comment_footer []
           ed25519_private_key ed25519_blob).
  - vm_compute. reflexivity.
  - vm_compute. reflexivity.
Defined.
